(** * MovieReviewAppFrontEnd: the admin pages, embedded and verified

    The two page components that talk to the backend are embedded here:
    [AdminMovies] (list, add, delete one, delete all) and [UsersChart]
    (the registered-users list).  Their asynchronous handlers are written
    in a small monad that threads the component state and the log of HTTP
    requests and carries thrown errors, so that each handler reads like
    its JavaScript source. *)

From Stdlib Require Import List NArith Bool Arith Lia.
From Stdlib Require Import Strings.String Strings.Ascii.
Import ListNotations.
Set Warnings "-register-all".
Open Scope string_scope.
Open Scope list_scope.

(** ** The JavaScript values the components handle *)

Module Js.

(** A JavaScript string is a sequence of UTF-16 code units. *)
Definition jsstring : Type := list N.

(** A source literal written with ASCII characters only. *)
Fixpoint lit (s : string) : jsstring :=
  match s with
  | EmptyString => []
  | String c rest => N_of_ascii c :: lit rest
  end.

Fixpoint str_eqb (a b : jsstring) : bool :=
  match a, b with
  | [], [] => true
  | x :: a', y :: b' => N.eqb x y && str_eqb a' b'
  | _, _ => false
  end.

(** ToBoolean on a string: only the empty string is falsy. *)
Definition truthy (s : jsstring) : bool :=
  match s with
  | [] => false
  | _ :: _ => true
  end.

(** [s || d] for a string [s]. *)
Definition or_else (s d : jsstring) : jsstring :=
  if truthy s then s else d.

(** WhiteSpace and LineTerminator code units, the ones [trim] strips:
    TAB, LF, VT, FF, CR, SP, NBSP, the Zs category, LS, PS and BOM. *)
Definition is_white_space (c : N) : bool :=
  ((9 <=? c) && (c <=? 13))%N
  || (c =? 32)%N || (c =? 160)%N || (c =? 5760)%N
  || ((8192 <=? c) && (c <=? 8202))%N
  || (c =? 8232)%N || (c =? 8233)%N || (c =? 8239)%N
  || (c =? 8287)%N || (c =? 12288)%N || (c =? 65279)%N.

Fixpoint trimStart (s : jsstring) : jsstring :=
  match s with
  | [] => []
  | c :: rest => if is_white_space c then trimStart rest else s
  end.

Definition trimEnd (s : jsstring) : jsstring :=
  rev (trimStart (rev s)).

(** String.prototype.trim *)
Definition trim (s : jsstring) : jsstring :=
  trimEnd (trimStart s).

(** A string with no code unit other than white space (the empty string
    included). *)
Definition blank (s : jsstring) : bool :=
  forallb is_white_space s.

Fixpoint startsWith (s search : jsstring) {struct search} : bool :=
  match search, s with
  | [], _ => true
  | _ :: _, [] => false
  | x :: search', y :: s' => N.eqb x y && startsWith s' search'
  end.

(** String.prototype.includes: [search] occurs in [s] at some position. *)
Fixpoint includes (s search : jsstring) : bool :=
  startsWith s search ||
  match s with
  | [] => false
  | _ :: s' => includes s' search
  end.

(** [s.substring(0, n)] *)
Definition substring0 (s : jsstring) (n : nat) : jsstring :=
  firstn n s.

(** String.prototype.toLowerCase on the code units below 256, where it
    acts unit by unit: A-Z and the capital letters of Latin-1.  It is
    applied to header values only, which the Fetch API hands over as byte
    strings; other units are left as they are. *)
Definition lower_unit (c : N) : N :=
  if ((65 <=? c) && (c <=? 90))%N then (c + 32)%N
  else if ((192 <=? c) && (c <=? 222) && negb (c =? 215))%N then (c + 32)%N
  else c.

Definition toLowerCase (s : jsstring) : jsstring :=
  map lower_unit s.

(** A header value, a byte string, as the JavaScript string the Headers
    object returns for it. *)
Definition of_bytes (s : string) : jsstring := lit s.

Fixpoint digits (d : Decimal.uint) : jsstring :=
  match d with
  | Decimal.Nil => []
  | Decimal.D0 r => 48%N :: digits r
  | Decimal.D1 r => 49%N :: digits r
  | Decimal.D2 r => 50%N :: digits r
  | Decimal.D3 r => 51%N :: digits r
  | Decimal.D4 r => 52%N :: digits r
  | Decimal.D5 r => 53%N :: digits r
  | Decimal.D6 r => 54%N :: digits r
  | Decimal.D7 r => 55%N :: digits r
  | Decimal.D8 r => 56%N :: digits r
  | Decimal.D9 r => 57%N :: digits r
  end.

(** ToString on a non-negative integer such as an HTTP status. *)
Definition nat_to_string (n : N) : jsstring :=
  digits (N.to_uint n).

(** A value parsed from a JSON body.  A number is kept by its ToString
    rendering, which is all these components observe of it. *)
Inductive Json : Type :=
| JNull
| JBool (b : bool)
| JNumber (shown : jsstring)
| JString (s : jsstring)
| JArray (items : list Json)
| JObject (props : list (jsstring * Json)).

(** Property read on a parsed object: of duplicate keys the last one
    holds; [None] is [undefined]. *)
Fixpoint get_prop (props : list (jsstring * Json)) (key : jsstring)
  : option Json :=
  match props with
  | [] => None
  | (k, v) :: rest =>
      match get_prop rest key with
      | Some later => Some later
      | None => if str_eqb k key then Some v else None
      end
  end.

(** ToString on a parsed value, as a template literal applies it; [None]
    when it throws.  An object is rendered by [Object.prototype.toString]
    unless it has a key [toString] of its own: the value under that key is
    no function, [valueOf] gives back the object, and the conversion ends
    in a TypeError.  An array is rendered by [join], which renders the
    elements in turn, [null] as the empty string. *)
Fixpoint json_to_string (v : Json) : option jsstring :=
  match v with
  | JNull => Some (lit "null")
  | JBool true => Some (lit "true")
  | JBool false => Some (lit "false")
  | JNumber shown => Some shown
  | JString s => Some s
  | JArray items =>
      (fix join (l : list Json) : option jsstring :=
         match l with
         | [] => Some []
         | x :: rest =>
             match match x with
                   | JNull => Some []
                   | _ => json_to_string x
                   end with
             | None => None
             | Some here =>
                 match rest with
                 | [] => Some here
                 | _ :: _ =>
                     match join rest with
                     | None => None
                     | Some more => Some (here ++ 44%N :: more)
                     end
                 end
             end
         end) items
  | JObject props =>
      match get_prop props (lit "toString") with
      | Some _ => None
      | None => Some (lit "[object Object]")
      end
  end.

(** ToString on a value that may be [undefined]. *)
Definition to_string (v : option Json) : option jsstring :=
  match v with
  | None => Some (lit "undefined")
  | Some j => json_to_string j
  end.

Definition isArray (v : Json) : bool :=
  match v with
  | JArray _ => true
  | _ => false
  end.



End Js.
Import Js.
Arguments lit : simpl never.
Arguments nat_to_string : simpl never.

(** ** The browser around the components *)

Module Web.

Inductive Method : Type := GET | POST | DELETE.

(** A property value of the object [toPayload] builds.  [FNumber s] is
    [Number(s)], the builtin applied to the text of the input: doubles are
    not computed here. *)
Inductive Field : Type :=
| FUndefined
| FNull
| FString (s : jsstring)
| FNumber (input : jsstring).

(** An object literal: its properties in the order they are written. *)
Definition Payload : Type := list (string * Field).

Fixpoint prop (p : Payload) (key : string) : Field :=
  match p with
  | [] => FUndefined
  | (k, v) :: rest => if String.eqb k key then v else prop rest key
  end.

(** What [fetch] is called with.  [body] is the object handed to
    [JSON.stringify]. *)
Record Request : Type := {
  method : Method;
  url : jsstring;
  content_type : option jsstring;
  credentials : option jsstring;
  body : option Payload
}.

Definition get (u : jsstring) : Request :=
  {| method := GET; url := u; content_type := None;
     credentials := None; body := None |}.

(** How a promise settles. *)
Inductive Settled (A : Type) : Type :=
| Resolved (a : A)
| Rejected (message : jsstring).
Arguments Resolved {A} a.
Arguments Rejected {A} message.

(** A Response object, by what the components read of it: the status,
    the content-type header (a byte string, absent when [None]), and what
    [res.text()] and [res.json()] settle to. *)
Record Response : Type := {
  status : N;
  header_content_type : option string;
  text : Settled jsstring;
  json : Settled Json
}.

(** [res.ok]: the status is in the range 200-299. *)
Definition ok (r : Response) : bool :=
  ((200 <=? status r) && (status r <=? 299))%N.

(** [res.headers.get("content-type")] *)
Definition headers_get_content_type (r : Response) : option jsstring :=
  option_map of_bytes (header_content_type r).

(** The promise [fetch] returns, by the way it settles and the moment it
    does so; the moment matters only where promises race. *)
Record Reply : Type := {
  arrival : nat;
  outcome : Settled Response
}.

(** TypeErrors raised by the engine; their wording is the engine's:
    [list.map] called where [list] has no [map], [list.map] read where
    [list] is [null], [m.id] read where [m] is [null], and a template
    literal over an object that has no string form. *)
Inductive Fault : Type :=
| NotAFunction
| ReadOfNull
| ReadIdOfNull
| NotPrimitive.

(** Everything outside the component: the user answering [confirm], the
    network answering a request given all the requests sent so far (the
    last one being the request answered), the engine's messages. *)
Record Browser : Type := {
  confirm : jsstring -> bool;
  net : list Request -> Reply;
  fault_message : Fault -> jsstring
}.

(** The component state [ui] and the requests sent so far, oldest first. *)
Record World (S : Type) : Type := {
  ui : S;
  sent : list Request
}.
Arguments ui {S} w.
Arguments sent {S} w.

(** How a piece of code completes.  Of a thrown error the handlers read
    the message only, so the message stands for the error. *)
Inductive Completion (A : Type) : Type :=
| Normal (a : A)
| Thrown (message : jsstring).
Arguments Normal {A} a.
Arguments Thrown {A} message.

(** An asynchronous computation over a component with state [S]. *)
Definition M (S A : Type) : Type := World S -> Completion A * World S.

Definition ret {S A} (a : A) : M S A := fun w => (Normal a, w).

Definition bind {S A B} (c : M S A) (k : A -> M S B) : M S B :=
  fun w =>
    match c w with
    | (Normal a, w') => k a w'
    | (Thrown m, w') => (Thrown m, w')
    end.

(** [throw new Error(m)] *)
Definition throw {S A} (m : jsstring) : M S A := fun w => (Thrown m, w).

(** A state setter of the component. *)
Definition set {S} (f : S -> S) : M S unit :=
  fun w => (Normal tt, {| ui := f (ui w); sent := sent w |}).

(** The state as the handler's closure sees it. *)
Definition read {S A} (f : S -> A) : M S A :=
  fun w => (Normal (f (ui w)), w).

(** [try { body } catch (err) { handler(err.message) } finally { final }] *)
Definition try_catch_finally {S A}
  (body : M S A) (handler : jsstring -> M S A) (final : M S unit) : M S A :=
  fun w =>
    let (c, w1) :=
      match body w with
      | (Normal a, w') => (Normal a, w')
      | (Thrown m, w') => handler m w'
      end in
    match final w1 with
    | (Normal _, w2) => (c, w2)
    | (Thrown m, w2) => (Thrown m, w2)
    end.

Declare Scope js_scope.
Delimit Scope js_scope with js.
Notation "x <- c ;; k" := (bind c (fun x => k))
  (at level 61, c at next level, right associativity) : js_scope.
Notation "c ;; k" := (bind c (fun _ => k))
  (at level 61, right associativity) : js_scope.
Open Scope js_scope.

(** The state of the component after a run. *)
Definition after {S A} (r : Completion A * World S) : S := ui (snd r).

(** The requests sent by the end of a run. *)
Definition requests {S A} (r : Completion A * World S) : list Request :=
  sent (snd r).

Section Browser.
Variable browser : Browser.
Context {S : Type}.

(** Calling [fetch]: the request goes out and a promise comes back. *)
Definition fetch_start (req : Request) : M S Reply :=
  fun w =>
    let log := sent w ++ [req] in
    (Normal (net browser log), {| ui := ui w; sent := log |}).

(** [await] on a settled value. *)
Definition await {A} (p : Settled A) : M S A :=
  match p with
  | Resolved a => ret a
  | Rejected m => throw m
  end.

(** [await fetch(...)] *)
Definition fetch (req : Request) : M S Response :=
  p <- fetch_start req ;; await (outcome p).

(** The rejection that arrives first among the promises, with its moment;
    of two arriving together the one earlier in the array. *)
Fixpoint first_rejection (ps : list Reply) : option (nat * jsstring) :=
  match ps with
  | [] => None
  | p :: rest =>
      match outcome p, first_rejection rest with
      | Rejected m, Some (t, m') =>
          if (arrival p <=? t)%nat then Some (arrival p, m) else Some (t, m')
      | Rejected m, None => Some (arrival p, m)
      | Resolved _, later => later
      end
  end.

Fixpoint fulfilled (ps : list Reply) : list Response :=
  match ps with
  | [] => []
  | p :: rest =>
      match outcome p with
      | Resolved r => r :: fulfilled rest
      | Rejected _ => fulfilled rest
      end
  end.

(** [await Promise.all(ps)]: rejects with the first rejection, otherwise
    resolves with all the values. *)
Definition promise_all (ps : list Reply) : M S (list Response) :=
  match first_rejection ps with
  | Some (_, m) => throw m
  | None => ret (fulfilled ps)
  end.

Fixpoint each {A B} (f : A -> M S B) (l : list A) : M S (list B) :=
  match l with
  | [] => ret []
  | x :: rest => y <- f x ;; ys <- each f rest ;; ret (y :: ys)
  end.

(** [list.map(f)] on a parsed value: only an array has [map]. *)
Definition array_map {B} (arr : Json) (f : Json -> M S B) : M S (list B) :=
  match arr with
  | JArray items => each f items
  | JNull => throw (fault_message browser ReadOfNull)
  | _ => throw (fault_message browser NotAFunction)
  end.

(** [m.id] on a parsed value; [None] is [undefined]. *)
Definition member_id (m : Json) : M S (option Json) :=
  match m with
  | JNull => throw (fault_message browser ReadIdOfNull)
  | JObject props => ret (get_prop props (lit "id"))
  | _ => ret None
  end.

(** The text a template literal puts in for [${v}], [shown] being
    [to_string v]: the conversion may throw. *)
Definition interpolate (shown : option jsstring) : M S jsstring :=
  match shown with
  | Some text => ret text
  | None => throw (fault_message browser NotPrimitive)
  end.

(** [confirm(message)] *)
Definition ask (message : jsstring) : M S bool :=
  ret (confirm browser message).

(** The promises a run of [fetch] calls gets, one call after the other,
    when [hist] was sent before. *)
Fixpoint answers (hist : list Request) (reqs : list Request) : list Reply :=
  match reqs with
  | [] => []
  | r :: rest => net browser (hist ++ [r]) :: answers (hist ++ [r]) rest
  end.

End Browser.

(** [m.id] where [m] is not [null]. *)
Definition id_of (m : Json) : option Json :=
  match m with
  | JObject props => get_prop props (lit "id")
  | _ => None
  end.

(** The text of [${m.id}] for an entry [m] of a list; [None] when reading
    [m.id] or converting it throws. *)
Definition id_text (m : Json) : option jsstring :=
  match m with
  | JNull => None
  | _ => to_string (id_of m)
  end.

(** The requests a run added to those of the world it started in. *)
Definition issued {S A} (w : World S) (r : Completion A * World S)
  : list Request :=
  skipn (List.length (sent w)) (requests r).

Definition is_delete (r : Request) : bool :=
  match method r with
  | DELETE => true
  | _ => false
  end.

Definition is_get (r : Request) : bool :=
  match method r with
  | GET => true
  | _ => false
  end.

Definition is_post (r : Request) : bool :=
  match method r with
  | POST => true
  | _ => false
  end.

(** A computation that leaves the part [proj] of the state as it was. *)
Definition keeps {S A X} (proj : S -> X) (c : M S A) : Prop :=
  forall w, proj (after (c w)) = proj (ui w).

(** A computation that sends nothing. *)
Definition silent {S A} (c : M S A) : Prop :=
  forall w, requests (c w) = sent w.


End Web.
Import Web.

(** ** AdminMovies: the movies page *)

Module AdminMovies.

(** Whether the backend expects snake_case keys. *)
Definition SEND_SNAKE_CASE : bool := false.

(** The controlled form: every field is the text of its input. *)
Record Form : Type := {
  title : jsstring;
  director : jsstring;
  genre : jsstring;
  leadActor1 : jsstring;
  leadActor2 : jsstring;
  releaseDate : jsstring;
  salesMillions : jsstring;
  posterUrl : jsstring
}.

(** [s || null] *)
Definition or_null (s : jsstring) : Field :=
  if truthy s then FString s else FNull.

Definition toPayload (form : Form) : Payload :=
  let payload : Payload :=
    [ ("title", or_null (title form));
      ("director", or_null (director form));
      ("genre", or_null (genre form));
      ("leadActor1", or_null (leadActor1 form));
      ("leadActor2", or_null (leadActor2 form));
      ("releaseDate", or_null (releaseDate form));
      ("salesMillions",
        if str_eqb (salesMillions form) (lit "") then FNull
        else FNumber (salesMillions form));
      ("posterUrl", or_null (posterUrl form)) ] in
  if negb SEND_SNAKE_CASE then payload
  else
    [ ("title", prop payload "title");
      ("director", prop payload "director");
      ("genre", prop payload "genre");
      ("lead_actor_1", prop payload "leadActor1");
      ("lead_actor_2", prop payload "leadActor2");
      ("release_date", prop payload "releaseDate");
      ("sales_millions", prop payload "salesMillions");
      ("poster_url", prop payload "posterUrl") ].

(** The optional inputs sent as text, each with its key in the payload. *)
Definition text_inputs : list (string * (Form -> jsstring)) :=
  [ ("director", director); ("genre", genre); ("leadActor1", leadActor1);
    ("leadActor2", leadActor2); ("releaseDate", releaseDate);
    ("posterUrl", posterUrl) ].

Definition emptyForm : Form :=
  {| title := lit ""; director := lit ""; genre := lit "";
     leadActor1 := lit ""; leadActor2 := lit ""; releaseDate := lit "";
     salesMillions := lit ""; posterUrl := lit "" |}.

(** The four [useState] cells of the component. *)
Record State : Type := {
  movies : Json;
  form : Form;
  loading : bool;
  error : jsstring
}.

(** The state on mount. *)
Definition mounted : State :=
  {| movies := JArray []; form := emptyForm; loading := false;
     error := lit "" |}.

Definition setMovies (v : Json) : M State unit :=
  set (fun s => {| movies := v; form := form s; loading := loading s;
                   error := error s |}).

Definition setForm (f : Form) : M State unit :=
  set (fun s => {| movies := movies s; form := f; loading := loading s;
                   error := error s |}).

Definition setLoading (b : bool) : M State unit :=
  set (fun s => {| movies := movies s; form := form s; loading := b;
                   error := error s |}).

Definition setError (m : jsstring) : M State unit :=
  set (fun s => {| movies := movies s; form := form s;
                   loading := loading s; error := m |}).

(** [fetch("/api/admin/movies", { method: "POST", ... })] *)
Definition post_movie (payload : Payload) : Request :=
  {| method := POST; url := lit "/api/admin/movies";
     content_type := Some (lit "application/json");
     credentials := None; body := Some payload |}.

(** [fetch(`/api/admin/movies/${id}`, { method: "DELETE" })], [shown]
    being the text of [${id}]. *)
Definition delete_movie (shown : jsstring) : Request :=
  {| method := DELETE; url := lit "/api/admin/movies/" ++ shown;
     content_type := None; credentials := None; body := None |}.

Section Handlers.
Variable browser : Browser.

(** Load all movies from the backend. *)
Definition load : M State unit :=
  setLoading true ;;
  setError (lit "") ;;
  try_catch_finally
    (res <- fetch browser (get (lit "/api/movies")) ;;
     if negb (ok res)
     then throw (lit "GET /api/movies failed: " ++ nat_to_string (status res))
     else
       data <- await (json res) ;;
       setMovies data)
    (fun message =>
       setError message ;;
       setMovies (JArray []))
    (setLoading false).

(** Add a single movie; [e.preventDefault()] touches the event only.  The
    form is the one of the render the handler was created in. *)
Definition addMovie : M State unit :=
  form <- read form ;;
  setLoading true ;;
  setError (lit "") ;;
  try_catch_finally
    (if negb (truthy (trim (title form)))
     then throw (lit "Title is required")
     else
       let payload := toPayload form in
       res <- fetch browser (post_movie payload) ;;
       (if negb (ok res)
        then
          text <- await (text res) ;;
          throw (lit "POST failed " ++ nat_to_string (status res)
                   ++ lit ": " ++ text)
        else ret tt) ;;
       setForm emptyForm ;;
       load)
    (fun message => setError message)
    (setLoading false).

(** Delete one movie by id. *)
Definition deleteOne (id : option Json) : M State unit :=
  yes <- ask browser (lit "Delete this movie?") ;;
  if negb yes then ret tt
  else
    setLoading true ;;
    setError (lit "") ;;
    try_catch_finally
      (shown <- interpolate browser (to_string id) ;;
       res <- fetch browser (delete_movie shown) ;;
       if negb (ok res)
       then
         again <- interpolate browser (to_string id) ;;
         throw (lit "DELETE " ++ again ++ lit " failed: "
                  ++ nat_to_string (status res))
       else load)
      (fun message => setError message)
      (setLoading false).

(** Delete all movies: one DELETE per movie of a fresh list, all started
    before any is awaited. *)
Definition deleteAll : M State unit :=
  yes <- ask browser (lit "Delete ALL movies? This cannot be undone.") ;;
  if negb yes then ret tt
  else
    setLoading true ;;
    setError (lit "") ;;
    try_catch_finally
      (res <- fetch browser (get (lit "/api/movies")) ;;
       if negb (ok res)
       then throw (lit "Failed to load movies before deleting")
       else
         list <- await (json res) ;;
         promises <- array_map browser list
                       (fun m =>
                          id <- member_id browser m ;;
                          shown <- interpolate browser (to_string id) ;;
                          fetch_start browser (delete_movie shown)) ;;
         _ <- promise_all promises ;;
         load)
      (fun message => setError message)
      (setLoading false).

End Handlers.

(** [form[name]] for the name of an input of the form. *)
Definition field (f : Form) (name : string) : option jsstring :=
  if String.eqb name "title" then Some (title f)
  else if String.eqb name "director" then Some (director f)
  else if String.eqb name "genre" then Some (genre f)
  else if String.eqb name "leadActor1" then Some (leadActor1 f)
  else if String.eqb name "leadActor2" then Some (leadActor2 f)
  else if String.eqb name "releaseDate" then Some (releaseDate f)
  else if String.eqb name "salesMillions" then Some (salesMillions f)
  else if String.eqb name "posterUrl" then Some (posterUrl f)
  else None.

(** [{ ...p, [name]: value }].  Under a name that is none of the eight
    inputs the object gets a property no code reads: the fields stay. *)
Definition update (p : Form) (name : string) (value : jsstring) : Form :=
  {| title := if String.eqb name "title" then value else title p;
     director := if String.eqb name "director" then value else director p;
     genre := if String.eqb name "genre" then value else genre p;
     leadActor1 :=
       if String.eqb name "leadActor1" then value else leadActor1 p;
     leadActor2 :=
       if String.eqb name "leadActor2" then value else leadActor2 p;
     releaseDate :=
       if String.eqb name "releaseDate" then value else releaseDate p;
     salesMillions :=
       if String.eqb name "salesMillions" then value else salesMillions p;
     posterUrl := if String.eqb name "posterUrl" then value else posterUrl p |}.

(** The handler of the controlled inputs: [e.target] has the [name] and
    the [value]; the update is applied to the latest form. *)
Definition onChange (name : string) (value : jsstring) : M State unit :=
  set (fun s => {| movies := movies s; form := update (form s) name value;
                   loading := loading s; error := error s |}).

(** The Clear button: [setForm({ ...emptyForm })]. *)
Definition clear : M State unit := setForm emptyForm.

(** The keys of the payload when the backend expects snake_case. *)
Definition snake_names : list string :=
  [ "title"; "director"; "genre"; "lead_actor_1"; "lead_actor_2";
    "release_date"; "sales_millions"; "poster_url" ].

(** The [name] attributes of the eight inputs of the form, listed in the
    order in which [toPayload] reads the fields (the form itself renders
    the poster input before the sales input). *)
Definition input_names : list string :=
  [ "title"; "director"; "genre"; "leadActor1"; "leadActor2";
    "releaseDate"; "salesMillions"; "posterUrl" ].

(** [toPayload] with the flag [SEND_SNAKE_CASE] as an argument. *)
Definition toPayloadWith (snake : bool) (form : Form) : Payload :=
  let payload : Payload :=
    [ ("title", or_null (title form));
      ("director", or_null (director form));
      ("genre", or_null (genre form));
      ("leadActor1", or_null (leadActor1 form));
      ("leadActor2", or_null (leadActor2 form));
      ("releaseDate", or_null (releaseDate form));
      ("salesMillions",
        if str_eqb (salesMillions form) (lit "") then FNull
        else FNumber (salesMillions form));
      ("posterUrl", or_null (posterUrl form)) ] in
  if negb snake then payload
  else
    [ ("title", prop payload "title");
      ("director", prop payload "director");
      ("genre", prop payload "genre");
      ("lead_actor_1", prop payload "leadActor1");
      ("lead_actor_2", prop payload "leadActor2");
      ("release_date", prop payload "releaseDate");
      ("sales_millions", prop payload "salesMillions");
      ("poster_url", prop payload "posterUrl") ].

End AdminMovies.

(** ** UsersChart: the registered-users list *)

Module UsersChart.

(** [users] is [None] while nothing is loaded ([null] in the source). *)
Record State : Type := {
  users : option Json;
  loading : bool;
  error : jsstring
}.

Definition mounted : State :=
  {| users := None; loading := false; error := lit "" |}.

Definition setUsers (v : option Json) : M State unit :=
  set (fun s => {| users := v; loading := loading s; error := error s |}).

Definition setLoading (b : bool) : M State unit :=
  set (fun s => {| users := users s; loading := b; error := error s |}).

Definition setError (m : jsstring) : M State unit :=
  set (fun s => {| users := users s; loading := loading s; error := m |}).

Definition endpoint : jsstring := lit "/users".

(** The dash of the failure message, U+2014. *)
Definition em_dash : N := 8212.

(** [fetch(endpoint, { credentials: "same-origin" })] *)
Definition get_users : Request :=
  {| method := GET; url := endpoint; content_type := None;
     credentials := Some (lit "same-origin"); body := None |}.

(** [(res.headers.get("content-type") || "").toLowerCase()] *)
Definition content_type_of (res : Response) : jsstring :=
  toLowerCase
    (match headers_get_content_type res with
     | Some v => or_else v (lit "")
     | None => lit ""
     end).

Section Handlers.
Variable browser : Browser.

Definition load : M State unit :=
  setLoading true ;;
  setError (lit "") ;;
  setUsers None ;;
  try_catch_finally
    (res <- fetch browser get_users ;;
     let ct := content_type_of res in
     (if negb (ok res)
      then
        text <- await (text res) ;;
        throw (lit "GET " ++ endpoint ++ lit " failed: "
                 ++ nat_to_string (status res)
                 ++ [32%N; em_dash; 32%N] ++ substring0 text 200)
      else ret tt) ;;
     if includes ct (lit "application/json")
     then
       data <- await (json res) ;;
       setUsers (Some (if isArray data then data else JArray []))
     else
       text <- await (text res) ;;
       throw (lit "Unexpected response content-type=" ++ ct
                ++ lit ". Body: " ++ substring0 text 200))
    (fun message =>
       (* console.error(err) writes to the console only *)
       setError (or_else message (lit "Failed to load users")) ;;
       setUsers (Some (JArray [])))
    (setLoading false).

End Handlers.

(** The conditions under which the component renders its blocks:
    [{error && ...}], [{loading && !users && ...}],
    [{users && users.length === 0 && ...}] and
    [{users && users.length > 0 && ...}].  [users] holds [null] or an
    array: [setUsers] is given nothing else.  These are the conditions
    only; what rendering the rows of the table does is not modelled. *)
Definition shows_error (s : State) : bool := truthy (error s).

Definition shows_loading (s : State) : bool :=
  loading s && match users s with None => true | Some _ => false end.

Definition shows_no_users (s : State) : bool :=
  match users s with
  | Some (JArray items) => Nat.eqb (List.length items) 0
  | _ => false
  end.

Definition shows_table (s : State) : bool :=
  match users s with
  | Some (JArray items) => Nat.ltb 0 (List.length items)
  | _ => false
  end.



End UsersChart.

(** ** Concrete backends, for the examples *)

Module Scenarios.

Definition quoted (s : string) : jsstring := 34%N :: lit s ++ [34%N].

(** The movie [{"id": id, "title": title}] and its JSON text. *)
Definition movie (id title : string) : Json :=
  JObject [(lit "id", JNumber (lit id)); (lit "title", JString (lit title))].

Definition movie_text (id title : string) : jsstring :=
  lit "{" ++ quoted "id" ++ lit ":" ++ lit id ++ lit ","
    ++ quoted "title" ++ lit ":" ++ quoted title ++ lit "}".

Definition three_movies : Json :=
  JArray [movie "1" "Dune"; movie "2" "Alien"; movie "3" "Heat"].

Definition three_movies_text : jsstring :=
  lit "[" ++ movie_text "1" "Dune" ++ lit "," ++ movie_text "2" "Alien"
    ++ lit "," ++ movie_text "3" "Heat" ++ lit "]".

Definition json_response (st : N) (body : jsstring) (parsed : Json)
  : Response :=
  {| status := st;
     header_content_type := Some "application/json";
     text := Resolved body;
     json := Resolved parsed |}.

Definition json_reply (st : N) (body : jsstring) (parsed : Json) : Reply :=
  {| arrival := 0; outcome := Resolved (json_response st body parsed) |}.

Definition error_page : jsstring :=
  lit "<html><body><h1>Internal Server Error</h1></body></html>".

(** The error page served with status [st]. *)
Definition html_response (st : N) : Response :=
  {| status := st;
     header_content_type := Some "text/html; charset=UTF-8";
     text := Resolved error_page;
     json := Rejected (lit "Unexpected token < in JSON at position 0") |}.

Definition html_reply (st : N) : Reply :=
  {| arrival := 0; outcome := Resolved (html_response st) |}.

Definition no_content : Reply :=
  {| arrival := 0;
     outcome := Resolved {| status := 204;
                            header_content_type := None;
                            text := Resolved (lit "");
                            json := Rejected (lit "Unexpected end of JSON input") |} |}.

Definition network_error (at_tick : nat) (message : string) : Reply :=
  {| arrival := at_tick; outcome := Rejected (lit message) |}.

Definition engine_words (f : Fault) : jsstring :=
  match f with
  | NotAFunction => lit "list.map is not a function"
  | ReadOfNull => lit "Cannot read properties of null (reading 'map')"
  | ReadIdOfNull => lit "Cannot read properties of null (reading 'id')"
  | NotPrimitive => lit "Cannot convert object to primitive value"
  end.

Definition last_request (log : list Request) : option Request :=
  last (map Some log) None.

(** A backend holding three movies whose every route answers by one fixed
    reply per method and URL. *)
Definition backend (user_agrees : bool) (list_reply : Reply)
  (delete_reply : jsstring -> Reply) (post_reply : Reply) : Browser :=
  {| confirm := fun _ => user_agrees;
     net := fun log =>
       match last_request log with
       | Some r =>
           match method r with
           | GET => list_reply
           | DELETE => delete_reply (url r)
           | POST => post_reply
           end
       | None => list_reply
       end;
     fault_message := engine_words |}.

Definition listing : Reply := json_reply 200 three_movies_text three_movies.

(** Every DELETE is answered 500 with an HTML page. *)
Definition refusing_deletes : Browser :=
  backend true listing (fun _ => html_reply 500) (html_reply 500).

(** The DELETE of movie 2 never reaches the server; the others succeed. *)
Definition dropping_second_delete : Browser :=
  backend true listing
    (fun u => if str_eqb u (lit "/api/admin/movies/2")
              then network_error 4 "Failed to fetch" else no_content)
    (html_reply 500).

(** The DELETEs of movies 1 and 3 both fail, that of movie 3 first. *)
Definition dropping_two_deletes : Browser :=
  backend true listing
    (fun u => if str_eqb u (lit "/api/admin/movies/1")
              then network_error 7 "The operation timed out"
              else if str_eqb u (lit "/api/admin/movies/3")
              then network_error 2 "Failed to fetch" else no_content)
    (html_reply 500).

(** Every DELETE succeeds. *)
Definition obeying : Browser :=
  backend true listing (fun _ => no_content)
    (json_reply 201 (movie_text "4" "Dune") (movie "4" "Dune")).

(** The user answers no to every prompt. *)
Definition declining : Browser :=
  backend false listing (fun _ => no_content) (html_reply 500).

(** GET answers 500 with an HTML page. *)
Definition broken_listing : Browser :=
  backend true (html_reply 500) (fun _ => no_content) (html_reply 500).

(** GET answers 200 with an HTML page. *)
Definition html_listing : Browser :=
  backend true (html_reply 200) (fun _ => no_content) (html_reply 500).

(** The JSON object [{"users": 3}], served with status 200. *)
Definition object_response : Response :=
  json_response 200 (lit "{" ++ quoted "users" ++ lit ":3}")
    (JObject [(lit "users", JNumber (lit "3"))]).

(** GET answers 200 with that object. *)
Definition object_listing : Browser :=
  backend true {| arrival := 0; outcome := Resolved object_response |}
    (fun _ => no_content) (html_reply 500).

(** The movies page with the three movies loaded. *)
Definition showing_three : World AdminMovies.State :=
  {| ui := {| AdminMovies.movies := three_movies;
              AdminMovies.form := AdminMovies.emptyForm;
              AdminMovies.loading := false;
              AdminMovies.error := lit "" |};
     sent := [] |}.

Definition dune : AdminMovies.Form :=
  {| AdminMovies.title := lit "Dune";
     AdminMovies.director := lit "Villeneuve";
     AdminMovies.genre := lit "";
     AdminMovies.leadActor1 := lit "";
     AdminMovies.leadActor2 := lit "";
     AdminMovies.releaseDate := lit "";
     AdminMovies.salesMillions := lit "";
     AdminMovies.posterUrl := lit "" |}.

(** A draft whose title is a space, a tab and a no-break space. *)
Definition blank_draft : AdminMovies.Form :=
  {| AdminMovies.title := [32%N; 9%N; 160%N];
     AdminMovies.director := lit "Villeneuve";
     AdminMovies.genre := lit "";
     AdminMovies.leadActor1 := lit "";
     AdminMovies.leadActor2 := lit "";
     AdminMovies.releaseDate := lit "";
     AdminMovies.salesMillions := lit "165";
     AdminMovies.posterUrl := lit "" |}.

Definition with_form (f : AdminMovies.Form) : World AdminMovies.State :=
  {| ui := {| AdminMovies.movies := three_movies;
              AdminMovies.form := f;
              AdminMovies.loading := false;
              AdminMovies.error := lit "" |};
     sent := [] |}.

Definition prompt_all : jsstring :=
  lit "Delete ALL movies? This cannot be undone.".

Definition prompt_one : jsstring := lit "Delete this movie?".

Definition list_movies : Request := get (lit "/api/movies").

Definition delete_of (id : string) : Request :=
  AdminMovies.delete_movie (lit id).

(** The status each promise resolved with. *)
Definition statuses (ps : list Reply) : list (option N) :=
  map (fun p => match outcome p with
                | Resolved r => Some (status r)
                | Rejected _ => None
                end) ps.

Definition users_page : World UsersChart.State :=
  {| ui := UsersChart.mounted; sent := [] |}.

(** GET answers 200 with the empty array. *)
Definition empty_listing : Browser :=
  backend true (json_reply 200 (lit "[]") (JArray []))
    (fun _ => no_content) (html_reply 500).

(** GET answers 200 with [[movie 1, null, movie 3]]. *)
Definition holed_response : Response :=
  json_response 200
    (lit "[" ++ movie_text "1" "Dune" ++ lit ",null,"
       ++ movie_text "3" "Heat" ++ lit "]")
    (JArray [movie "1" "Dune"; JNull; movie "3" "Heat"]).

Definition holed_listing : Browser :=
  backend true {| arrival := 0; outcome := Resolved holed_response |}
    (fun _ => no_content) (html_reply 500).

(** An id no template literal can show: [{"toString": 1}]. *)
Definition odd_id : Json := JObject [(lit "toString", JNumber (lit "1"))].

Definition odd_movie : Json :=
  JObject [(lit "id", odd_id); (lit "title", JString (lit "Alien"))].

Definition odd_movie_text : jsstring :=
  lit "{" ++ quoted "id" ++ lit ":{" ++ quoted "toString" ++ lit ":1},"
    ++ quoted "title" ++ lit ":" ++ quoted "Alien" ++ lit "}".

(** GET answers 200 with [[movie 1, the odd movie, movie 3]]. *)
Definition odd_response : Response :=
  json_response 200
    (lit "[" ++ movie_text "1" "Dune" ++ lit "," ++ odd_movie_text
       ++ lit "," ++ movie_text "3" "Heat" ++ lit "]")
    (JArray [movie "1" "Dune"; odd_movie; movie "3" "Heat"]).

Definition odd_listing : Browser :=
  backend true {| arrival := 0; outcome := Resolved odd_response |}
    (fun _ => no_content) (html_reply 500).

(** A user as a backend with snake_case columns sends it. *)
Definition snake_user : Json :=
  JObject [ (lit "userId", JNumber (lit "7"));
            (lit "username", JString (lit "ripley"));
            (lit "email", JNull);
            (lit "created_at", JString (lit "2024-05-01")) ].

Definition snake_user_text : jsstring :=
  lit "{" ++ quoted "userId" ++ lit ":7," ++ quoted "username" ++ lit ":"
    ++ quoted "ripley" ++ lit "," ++ quoted "email" ++ lit ":null,"
    ++ quoted "created_at" ++ lit ":" ++ quoted "2024-05-01" ++ lit "}".

(** The users as JSON under a content type spelled in capitals. *)
Definition capitals_response : Response :=
  {| status := 200;
     header_content_type := Some "Application/JSON; charset=UTF-8";
     text := Resolved (lit "[" ++ snake_user_text ++ lit "]");
     json := Resolved (JArray [snake_user]) |}.

Definition capitals_listing : Browser :=
  backend true {| arrival := 0; outcome := Resolved capitals_response |}
    (fun _ => no_content) (html_reply 500).

(** The users as JSON, with no content-type header. *)
Definition bare_response : Response :=
  {| status := 200;
     header_content_type := None;
     text := Resolved (lit "[" ++ snake_user_text ++ lit "]");
     json := Resolved (JArray [snake_user]) |}.

Definition bare_listing : Browser :=
  backend true {| arrival := 0; outcome := Resolved bare_response |}
    (fun _ => no_content) (html_reply 500).

End Scenarios.

(** * Properties *)

Example trim_spaces : trim (lit "  Dune  ") = lit "Dune".
Proof. reflexivity. Qed.

Example status_500 : nat_to_string 500 = lit "500".
Proof. reflexivity. Qed.

Example array_to_string :
  json_to_string (JArray [JNumber (lit "1"); JNull; JArray [JString (lit "a"); JBool true]])
  = Some (lit "1,,a,true").
Proof. reflexivity. Qed.

(** ** Strings *)

Section Strings.

Lemma trimStart_blank (s : jsstring) : blank s = true -> trimStart s = [].
Proof.
  induction s as [|c s IH]; simpl; [reflexivity|].
  intros H. apply andb_prop in H as [Hc Hs]. rewrite Hc. now apply IH.
Qed.

Lemma trimStart_nil_blank (s : jsstring) : trimStart s = [] -> blank s = true.
Proof.
  induction s as [|c s IH]; simpl; [reflexivity|].
  destruct (is_white_space c); simpl; [exact IH | discriminate].
Qed.

(** What [trimStart] leaves is empty or starts with a unit that is not
    white space. *)
Lemma trimStart_head (s : jsstring) :
  match trimStart s with
  | [] => blank s = true
  | c :: _ => is_white_space c = false /\ blank s = false
  end.
Proof.
  induction s as [|c s IH]; simpl; [reflexivity|].
  destruct (is_white_space c) eqn:Hc; simpl.
  - exact IH.
  - rewrite Hc. split; reflexivity.
Qed.

Lemma blank_app (a b : jsstring) : blank (a ++ b) = blank a && blank b.
Proof. apply forallb_app. Qed.

Lemma blank_rev (s : jsstring) : blank (rev s) = blank s.
Proof.
  induction s as [|c s IH]; simpl; [reflexivity|].
  rewrite blank_app, IH. simpl. rewrite andb_true_r. apply andb_comm.
Qed.

(** [!s.trim()] holds exactly of the strings made of white space. *)
Lemma trim_truthy (s : jsstring) : truthy (trim s) = negb (blank s).
Proof.
  unfold trim, trimEnd.
  pose proof (trimStart_head s) as Hs.
  destruct (trimStart s) as [|c t] eqn:Et.
  - rewrite Hs. reflexivity.
  - destruct Hs as [Hc Hb]. rewrite Hb. simpl negb.
    pose proof (trimStart_head (rev (c :: t))) as Hr.
    destruct (trimStart (rev (c :: t))) as [|d u] eqn:Er.
    + rewrite blank_rev in Hr. simpl in Hr. rewrite Hc in Hr. discriminate.
    + simpl rev. destruct (rev u); reflexivity.
Qed.

Lemma startsWith_app (s rest : jsstring) : startsWith (s ++ rest) s = true.
Proof.
  induction s as [|c s IH]; simpl; [reflexivity|].
  now rewrite N.eqb_refl, IH.
Qed.

Lemma includes_skip (pre s search : jsstring) :
  includes s search = true -> includes (pre ++ s) search = true.
Proof.
  intros H. induction pre as [|c pre IH]; simpl; [exact H|].
  rewrite IH. apply orb_true_r.
Qed.

(** A string includes each of the pieces it is concatenated from. *)
Lemma includes_middle (pre s post : jsstring) :
  includes (pre ++ s ++ post) s = true.
Proof.
  apply includes_skip. destruct s as [|c s]; [destruct post; reflexivity|].
  simpl. now rewrite N.eqb_refl, startsWith_app.
Qed.

Lemma includes_end (pre s : jsstring) : includes (pre ++ s) s = true.
Proof.
  rewrite <- (app_nil_r s) at 1. apply includes_middle.
Qed.

End Strings.

(** ** The movies page *)

Module MoviesPage.
Import AdminMovies.

Ltac run :=
  unfold addMovie, deleteOne, deleteAll, load, setMovies, setForm,
    setLoading, setError, fetch, fetch_start, ask, await, promise_all,
    try_catch_finally, bind, ret, throw, set, read, after, requests;
  simpl.

(** [load] sends its GET, never throws, and leaves the form alone: the list
    and the message it leaves are read off the reply. *)
Lemma load_run (browser : Browser) (w : World State) :
  load browser w =
  let '(list, message) :=
    match outcome (net browser (sent w ++ [get (lit "/api/movies")])) with
    | Resolved res =>
        if ok res then
          match json res with
          | Resolved data => (data, lit "")
          | Rejected m => (JArray [], m)
          end
        else (JArray [],
              lit "GET /api/movies failed: " ++ nat_to_string (status res))
    | Rejected m => (JArray [], m)
    end in
  (Normal tt,
   {| ui := {| movies := list; form := form (ui w); loading := false;
               error := message |};
      sent := sent w ++ [get (lit "/api/movies")] |}).
Proof.
  run.
  destruct (outcome _) as [res|m]; simpl; [|reflexivity].
  destruct (ok res); simpl; [|reflexivity].
  destruct (json res); reflexivity.
Qed.

Lemma load_normal (browser : Browser) (w : World State) :
  fst (load browser w) = Normal tt.
Proof.
  rewrite load_run.
  destruct (outcome _) as [res|m]; [destruct (ok res); [destruct (json res)|]|];
    reflexivity.
Qed.


Lemma load_form (browser : Browser) (w : World State) :
  form (after (load browser w)) = form (ui w).
Proof.
  rewrite load_run.
  destruct (outcome _) as [res|m]; [destruct (ok res); [destruct (json res)|]|];
    reflexivity.
Qed.

Lemma load_requests (browser : Browser) (w : World State) :
  requests (load browser w) = sent w ++ [get (lit "/api/movies")].
Proof.
  rewrite load_run.
  destruct (outcome _) as [res|m]; [destruct (ok res); [destruct (json res)|]|];
    reflexivity.
Qed.

(** [load] reads of the state it starts in nothing but the form. *)
Lemma load_start (browser : Browser) (s s' : State) (log : list Request) :
  form s = form s' ->
  load browser {| ui := s; sent := log |}
  = load browser {| ui := s'; sent := log |}.
Proof.
  intros H. rewrite !load_run. simpl. now rewrite H.
Qed.

Lemma issued_none {S A} (w : World S) (c : Completion A) (s : S) :
  issued w (c, {| ui := s; sent := sent w |}) = [].
Proof. unfold issued, requests. simpl. apply skipn_all. Qed.

Lemma issued_more {S A} (w : World S) (c : Completion A) (s : S)
  (more : list Request) :
  issued w (c, {| ui := s; sent := sent w ++ more |}) = more.
Proof.
  unfold issued, requests. simpl.
  rewrite skipn_app, skipn_all, Nat.sub_diag. reflexivity.
Qed.

(** C7: when GET /api/movies is answered with a non-success status, [load]
    stores the message [GET /api/movies failed: <status>], which contains
    the status code, and sets the list of movies to the empty array,
    whatever list was loaded before. *)
Theorem load_failure_status (browser : Browser) (w : World State)
  (res : Response) :
  outcome (net browser (sent w ++ [get (lit "/api/movies")])) = Resolved res ->
  ok res = false ->
  let s := after (load browser w) in
  error s = lit "GET /api/movies failed: " ++ nat_to_string (status res)
  /\ includes (error s) (nat_to_string (status res)) = true
  /\ movies s = JArray [].
Proof.
  intros Hnet Hok. rewrite load_run, Hnet, Hok.
  unfold after. cbn [snd ui error movies].
  split; [reflexivity | split; [apply includes_end | reflexivity]].
Qed.

Lemma addMovie_blank_run (browser : Browser) (w : World State) :
  blank (title (form (ui w))) = true ->
  addMovie browser w
  = (Normal tt,
     {| ui := {| movies := movies (ui w); form := form (ui w);
                 loading := false; error := lit "Title is required" |};
        sent := sent w |}).
Proof.
  intros Hblank. run. rewrite trim_truthy, Hblank. reflexivity.
Qed.

(** C4: with a title that is empty or made of white space only, [addMovie]
    sends no request and ends with the message [Title is required] shown,
    the loading flag cleared, the form and the list as they were. *)
Theorem addMovie_blank_title (browser : Browser) (w : World State) :
  blank (title (form (ui w))) = true ->
  addMovie browser w
  = (Normal tt,
     {| ui := {| movies := movies (ui w); form := form (ui w);
                 loading := false; error := lit "Title is required" |};
        sent := sent w |})
  /\ issued w (addMovie browser w) = []
  /\ truthy (error (after (addMovie browser w))) = true.
Proof.
  intros Hblank. rewrite (addMovie_blank_run browser w Hblank).
  repeat split. apply issued_none.
Qed.

(** C3: when the list fetched before the deletes is answered with a
    non-success status, [deleteAll] stops with the message
    [Failed to load movies before deleting]; the GET is the only request it
    sends, so no DELETE goes out. *)
Theorem deleteAll_prefetch_failure (browser : Browser) (w : World State)
  (res : Response) :
  confirm browser (lit "Delete ALL movies? This cannot be undone.") = true ->
  outcome (net browser (sent w ++ [get (lit "/api/movies")])) = Resolved res ->
  ok res = false ->
  deleteAll browser w
  = (Normal tt,
     {| ui := {| movies := movies (ui w); form := form (ui w);
                 loading := false;
                 error := lit "Failed to load movies before deleting" |};
        sent := sent w ++ [get (lit "/api/movies")] |})
  /\ issued w (deleteAll browser w) = [get (lit "/api/movies")]
  /\ filter is_delete (issued w (deleteAll browser w)) = [].
Proof.
  intros Hyes Hnet Hok.
  assert (deleteAll browser w
          = (Normal tt,
             {| ui := {| movies := movies (ui w); form := form (ui w);
                         loading := false;
                         error := lit "Failed to load movies before deleting" |};
                sent := sent w ++ [get (lit "/api/movies")] |})) as Hrun.
  { run. rewrite Hyes. simpl. rewrite Hnet. simpl. rewrite Hok. reflexivity. }
  rewrite Hrun, issued_more. repeat split.
Qed.

(** C9: when the user declines the prompt, [deleteOne] and [deleteAll]
    return at once: the world is the one they started in, so no request
    was sent and the list, the form, the loading flag and the message are
    unchanged. *)
Theorem declined_confirm (browser : Browser) (w : World State)
  (id : option Json) :
  (confirm browser (lit "Delete this movie?") = false ->
   deleteOne browser id w = (Normal tt, w))
  /\ (confirm browser (lit "Delete ALL movies? This cannot be undone.") = false ->
      deleteAll browser w = (Normal tt, w)).
Proof.
  split; intros Hno; run; rewrite Hno; reflexivity.
Qed.

(** C6: in the payload [toPayload] builds, every optional text input left
    empty is [null] (and is sent as typed otherwise); [salesMillions] is
    [null] for the empty input and [Number] of the input otherwise; the
    draft with title Dune, director Villeneuve and nothing else has
    [salesMillions: null]. *)
Theorem toPayload_nulls (f : Form) :
  (forall key input, In (key, input) text_inputs ->
     (input f = lit "" -> prop (toPayload f) key = FNull)
     /\ (input f <> lit "" -> prop (toPayload f) key = FString (input f)))
  /\ (salesMillions f = lit "" -> prop (toPayload f) "salesMillions" = FNull)
  /\ (salesMillions f <> lit "" ->
      prop (toPayload f) "salesMillions" = FNumber (salesMillions f))
  /\ prop (toPayload Scenarios.dune) "salesMillions" = FNull
  /\ prop (toPayload Scenarios.dune) "title" = FString (lit "Dune")
  /\ prop (toPayload Scenarios.dune) "director" = FString (lit "Villeneuve").
Proof.
  assert (forall s, s <> lit "" -> or_null s = FString s) as Hfull.
  { intros [|c s] H; [now elim H | reflexivity]. }
  repeat split; try reflexivity.
  - intros Hempty. simpl in H.
    repeat (destruct H as [H|H]; [injection H as <- <-; simpl; now rewrite Hempty|]).
    destruct H.
  - intros Hsome. simpl in H.
    repeat (destruct H as [H|H]; [injection H as <- <-; simpl; now apply Hfull|]).
    destruct H.
  - intros Hempty. simpl. now rewrite Hempty.
  - intros Hsome. simpl. destruct (salesMillions f); [now elim Hsome | reflexivity].
Qed.

Ltac run_handler :=
  unfold addMovie, deleteOne, deleteAll, setMovies, setForm,
    setLoading, setError, fetch, fetch_start, ask, await, promise_all,
    try_catch_finally, bind, ret, throw, set, read in *;
  simpl in *.

(** One step of the map of [deleteAll], on an entry whose id has a text:
    the DELETE goes out and its promise comes back. *)
Lemma start_delete (browser : Browser) (m : Json) (text : jsstring)
  (w : World State) :
  id_text m = Some text ->
  (id <- member_id browser m ;;
   shown <- interpolate browser (to_string id) ;;
   fetch_start browser (delete_movie shown)) w
  = (Normal (net browser (sent w ++ [delete_movie text])),
     {| ui := ui w; sent := sent w ++ [delete_movie text] |}).
Proof.
  intros Htext. unfold bind.
  destruct m; try discriminate Htext; unfold id_text, id_of in Htext;
    cbn [member_id ret]; rewrite Htext; reflexivity.
Qed.

(** What [deleteAll] maps over the fetched list, on a list whose entries
    all have an id with a text: one DELETE per element goes out, in the
    order of the list, and the promises come back. *)
Lemma start_deletes (browser : Browser) (items : list Json)
  (texts : list jsstring) (w : World State) :
  map id_text items = map Some texts ->
  each (fun m => id <- member_id browser m ;;
                 shown <- interpolate browser (to_string id) ;;
                 fetch_start browser (delete_movie shown)) items w
  = (Normal (answers browser (sent w) (map delete_movie texts)),
     {| ui := ui w; sent := sent w ++ map delete_movie texts |}).
Proof.
  revert texts w.
  induction items as [|m items IH]; intros [|text texts] w Htexts;
    try discriminate Htexts.
  - simpl. unfold ret. rewrite app_nil_r. destruct w; reflexivity.
  - injection Htexts as Htext Htexts.
    cbn [each map answers].
    unfold bind at 1. rewrite (start_delete browser m text w Htext).
    unfold bind at 1. rewrite (IH texts _ Htexts). cbn [sent ui]. unfold ret.
    rewrite <- app_assoc. reflexivity.
Qed.

Lemma first_rejection_none (ps : list Reply) :
  Forall (fun p => exists r, outcome p = Resolved r) ps ->
  first_rejection ps = None.
Proof.
  induction 1 as [|p ps [r Hr] _ IH]; simpl; [reflexivity|].
  now rewrite Hr.
Qed.

(** [deleteAll] once the list is fetched: the DELETEs all go out; with a
    rejection among them the handler stops there, otherwise it reloads. *)
Lemma deleteAll_run (browser : Browser) (w : World State) (res : Response)
  (items : list Json) (texts : list jsstring) :
  confirm browser (lit "Delete ALL movies? This cannot be undone.") = true ->
  outcome (net browser (sent w ++ [get (lit "/api/movies")])) = Resolved res ->
  ok res = true ->
  json res = Resolved (JArray items) ->
  map id_text items = map Some texts ->
  let hist := sent w ++ [get (lit "/api/movies")] in
  let deletes := map delete_movie texts in
  deleteAll browser w
  = match first_rejection (answers browser hist deletes) with
    | Some (_, m) =>
        (Normal tt,
         {| ui := {| movies := movies (ui w); form := form (ui w);
                     loading := false; error := m |};
            sent := hist ++ deletes |})
    | None => load browser {| ui := ui w; sent := hist ++ deletes |}
    end.
Proof.
  intros Hyes Hnet Hok Hjson Hitems hist deletes.
  pose proof (fun v => start_deletes browser items texts v Hitems) as Hstart.
  subst hist deletes.
  run_handler. rewrite Hyes. simpl. rewrite Hnet. simpl. rewrite Hok. simpl.
  rewrite Hjson. simpl. rewrite Hstart. cbn [sent ui].
  destruct (first_rejection _) as [[t m]|].
  - reflexivity.
  - simpl.
    rewrite (load_start browser (ui w)
               {| movies := movies (ui w); form := form (ui w);
                  loading := true; error := lit "" |} _ eq_refl).
    rewrite load_run. cbn [sent ui form]. clear Hnet Hstart.
    destruct (outcome _) as [r|m]; [destruct (ok r); [destruct (json r)|]|];
      reflexivity.
Qed.

Lemma first_rejection_some (ps : list Reply) :
  Exists (fun p => exists m, outcome p = Rejected m) ps ->
  exists t m, first_rejection ps = Some (t, m).
Proof.
  induction 1 as [p ps [m Hm]|p ps _ IH]; simpl.
  - rewrite Hm. destruct (first_rejection ps) as [[t m']|]; [|eauto].
    destruct (arrival p <=? t)%nat; eauto.
  - destruct IH as (t & m & ->).
    destruct (outcome p); [eauto|]. destruct (arrival p <=? t)%nat; eauto.
Qed.

Lemma first_rejection_none_inv (ps : list Reply) :
  first_rejection ps = None ->
  forall q m, In q ps -> outcome q <> Rejected m.
Proof.
  induction ps as [|p ps IH]; simpl; [intros _ q m []|].
  destruct (outcome p) as [r|mp] eqn:Hp.
  - intros H q m [<-|Hq]; [congruence | now apply IH].
  - destruct (first_rejection ps) as [[t m']|];
      [destruct (arrival p <=? t)%nat|]; discriminate.
Qed.

(** The rejection [Promise.all] reports is one of the promises', and none
    of the rejected promises arrived before it. *)
Lemma first_rejection_earliest (ps : list Reply) (t : nat) (m : jsstring) :
  first_rejection ps = Some (t, m) ->
  (exists p, In p ps /\ outcome p = Rejected m /\ arrival p = t)
  /\ (forall q m', In q ps -> outcome q = Rejected m' -> t <= arrival q).
Proof.
  revert t m. induction ps as [|p ps IH]; simpl; [discriminate|].
  intros t m. destruct (outcome p) as [r|mp] eqn:Hp.
  - intros H. destruct (IH _ _ H) as [(p' & Hin & Hrej & Hat) Hmin]. split.
    + exists p'. auto.
    + intros q m' [<-|Hq] Hq'; [congruence | eauto].
  - destruct (first_rejection ps) as [[t' m']|] eqn:Hrest.
    + destruct (IH _ _ eq_refl) as [(p' & Hin & Hrej & Hat) Hmin].
      destruct (Nat.leb_spec (arrival p) t') as [Hle|Hlt];
        intros [= <- <-]; split.
      * exists p. auto.
      * intros q mq [<-|Hq] Hq'; [lia|]. specialize (Hmin _ _ Hq Hq'). lia.
      * exists p'. auto.
      * intros q mq [<-|Hq] Hq'; [lia | eauto].
    + intros [= <- <-]. split.
      * exists p. auto.
      * intros q mq [<-|Hq] Hq'; [lia|].
        now elim (first_rejection_none_inv ps Hrest q mq Hq).
Qed.

(** C2, as the code has it: once the list is fetched, an array whose
    entries are not [null] and have an id that converts to a string
    ([texts] are the ids as the URLs show them), [deleteAll] sends one
    DELETE per movie; when every DELETE is answered with a success status
    it goes on to reload the list; when a DELETE is rejected it does not
    reload: it stops with the message of the rejection that arrived first,
    the displayed list being the one shown before. *)
Theorem deleteAll_reload (browser : Browser) (w : World State)
  (res : Response) (items : list Json) (texts : list jsstring) :
  confirm browser (lit "Delete ALL movies? This cannot be undone.") = true ->
  outcome (net browser (sent w ++ [get (lit "/api/movies")])) = Resolved res ->
  ok res = true ->
  json res = Resolved (JArray items) ->
  map id_text items = map Some texts ->
  let hist := sent w ++ [get (lit "/api/movies")] in
  let deletes := map delete_movie texts in
  let promises := answers browser hist deletes in
  (Forall (fun p => exists r, outcome p = Resolved r /\ ok r = true) promises ->
   deleteAll browser w = load browser {| ui := ui w; sent := hist ++ deletes |}
   /\ issued w (deleteAll browser w)
      = get (lit "/api/movies") :: deletes ++ [get (lit "/api/movies")])
  /\ (Exists (fun p => exists m, outcome p = Rejected m) promises ->
      exists t m,
        first_rejection promises = Some (t, m)
        /\ (exists p, In p promises /\ outcome p = Rejected m
                      /\ arrival p = t)
        /\ (forall q m', In q promises -> outcome q = Rejected m' ->
                         t <= arrival q)
        /\ deleteAll browser w
           = (Normal tt,
              {| ui := {| movies := movies (ui w); form := form (ui w);
                          loading := false; error := m |};
                 sent := hist ++ deletes |})
        /\ issued w (deleteAll browser w)
           = get (lit "/api/movies") :: deletes).
Proof.
  intros Hyes Hnet Hok Hjson Hitems hist deletes promises.
  pose proof (deleteAll_run browser w res items texts Hyes Hnet Hok Hjson
                Hitems) as Hrun. cbv zeta in Hrun. fold hist deletes promises in Hrun. split.
  - intros Hall. rewrite Hrun.
    rewrite (first_rejection_none promises).
    + split; [reflexivity|]. unfold issued.
      rewrite load_requests. cbn [sent]. subst hist.
      rewrite <- !app_assoc, skipn_app, skipn_all, Nat.sub_diag.
      reflexivity.
    + eapply Forall_impl; [|exact Hall]. intros p (r & Hr & _). eauto.
  - intros Hrej.
    destruct (first_rejection_some promises Hrej) as (t & m & Hfirst).
    destruct (first_rejection_earliest promises t m Hfirst) as [Hone Hmin].
    exists t, m. rewrite Hrun, Hfirst. split; [reflexivity|].
    split; [exact Hone|]. split; [exact Hmin|].
    split; [reflexivity|]. subst hist.
    rewrite <- app_assoc. apply issued_more.
Qed.

(** C8: [addMovie] leaves the form as typed when the title is blank, when
    the POST is rejected and when it is answered with a non-success status,
    and then a message is shown; it resets the form to the empty template
    when the POST is answered with a success status. *)
Theorem addMovie_form (browser : Browser) (w : World State) :
  let draft := form (ui w) in
  let run := addMovie browser w in
  let reply := outcome (net browser (sent w ++ [post_movie (toPayload draft)])) in
  (blank (title draft) = true ->
   form (after run) = draft /\ error (after run) = lit "Title is required")
  /\ (blank (title draft) = false ->
      forall res, reply = Resolved res ->
        (ok res = true -> form (after run) = emptyForm)
        /\ (ok res = false ->
            form (after run) = draft
            /\ (forall page, text res = Resolved page ->
                  error (after run)
                  = lit "POST failed " ++ nat_to_string (status res)
                      ++ lit ": " ++ page
                  /\ truthy (error (after run)) = true)
            /\ (forall m, text res = Rejected m -> error (after run) = m)))
  /\ (blank (title draft) = false ->
      forall m, reply = Rejected m ->
        form (after run) = draft /\ error (after run) = m).
Proof.
  intros draft run reply. subst run reply draft. split; [|split].
  - intros Hblank.
    rewrite (addMovie_blank_run browser w Hblank). split; reflexivity.
  - intros Hblank res Hnet. split; [intros Hok | intros Hok; split; [|split]].
    + run_handler. rewrite trim_truthy, Hblank. simpl. rewrite Hnet. simpl.
      rewrite Hok. simpl.
      match goal with |- context [load browser ?W] =>
        pose proof (load_form browser W) as Hf;
        pose proof (load_normal browser W) as Hn;
        destruct (load browser W) as [c w'] end.
      unfold after in *. simpl in *. subst c. simpl. exact Hf.
    + run_handler. rewrite trim_truthy, Hblank. simpl. rewrite Hnet. simpl.
      rewrite Hok. simpl. destruct (text res); reflexivity.
    + intros page Hpage.
      run_handler. rewrite trim_truthy, Hblank. simpl. rewrite Hnet. simpl.
      rewrite Hok. simpl. rewrite Hpage. split; reflexivity.
    + intros m Hm.
      run_handler. rewrite trim_truthy, Hblank. simpl. rewrite Hnet. simpl.
      rewrite Hok. simpl. rewrite Hm. reflexivity.
  - intros Hblank m Hnet.
    run_handler. rewrite trim_truthy, Hblank. simpl. rewrite Hnet.
    split; reflexivity.
Qed.

End MoviesPage.

(** ** The users list *)

Module UsersPage.
Import UsersChart.

Ltac run_load :=
  unfold load, setUsers, setLoading, setError, fetch, fetch_start, await,
    try_catch_finally, bind, ret, throw, set in *;
  simpl in *.

Lemma or_else_literal (c : ascii) (s : string) (rest d : jsstring) :
  or_else (lit (String c s) ++ rest) d = lit (String c s) ++ rest.
Proof. reflexivity. Qed.

(** C10: when GET /users is answered with a success status and a JSON
    content type and the parsed body is not an array, [load] completes
    with the users set to the empty array and no message stored. *)
Theorem load_non_array (browser : Browser) (w : World State)
  (res : Response) (data : Json) :
  outcome (net browser (sent w ++ [get_users])) = Resolved res ->
  ok res = true ->
  includes (content_type_of res) (lit "application/json") = true ->
  json res = Resolved data ->
  isArray data = false ->
  load browser w
  = (Normal tt,
     {| ui := {| users := Some (JArray []); loading := false;
                 error := lit "" |};
        sent := sent w ++ [get_users] |}).
Proof.
  intros Hnet Hok Hct Hjson Harr.
  run_load. rewrite Hnet. simpl. rewrite Hok. simpl. rewrite Hct.
  rewrite Hjson. simpl. rewrite Harr. reflexivity.
Qed.

(** The message [load] leaves when the status is not a success one. *)
Lemma users_failure_status (browser : Browser) (w : World State)
  (res : Response) (page : jsstring) :
  outcome (net browser (sent w ++ [get_users])) = Resolved res ->
  text res = Resolved page ->
  ok res = false ->
  error (after (load browser w))
  = lit "GET /users failed: " ++ nat_to_string (status res)
      ++ [32%N; em_dash; 32%N] ++ substring0 page 200.
Proof.
  intros Hnet Hpage Hok. unfold after.
  run_load. rewrite Hnet. simpl. rewrite Hok. simpl. rewrite Hpage.
  reflexivity.
Qed.

(** The message [load] leaves when the content type is not JSON. *)
Lemma users_failure_format (browser : Browser) (w : World State)
  (res : Response) (page : jsstring) :
  outcome (net browser (sent w ++ [get_users])) = Resolved res ->
  text res = Resolved page ->
  ok res = true ->
  includes (content_type_of res) (lit "application/json") = false ->
  error (after (load browser w))
  = lit "Unexpected response content-type=" ++ content_type_of res
      ++ lit ". Body: " ++ substring0 page 200.
Proof.
  intros Hnet Hpage Hok Hct. unfold after.
  run_load. rewrite Hnet. simpl. rewrite Hok. simpl. rewrite Hct.
  rewrite Hpage. reflexivity.
Qed.

End UsersPage.

(** ** The messages of the two list loads *)

(** C5, as the code has it: when the users list fails to load because the
    status is not a success one, the message stored contains the status
    code and the first 200 units of the body; when it fails because the
    content type is not JSON, the message contains the content type found
    and the first 200 units of the body.  The movies list, on a status that
    is not a success one, stores [GET /api/movies failed: <status>] and
    nothing of the body. *)
Theorem list_failure_messages (browser : Browser) (res : Response) :
  (forall (w : World UsersChart.State) (page : jsstring),
     outcome (net browser (sent w ++ [UsersChart.get_users])) = Resolved res ->
     text res = Resolved page ->
     let message := UsersChart.error (after (UsersChart.load browser w)) in
     (ok res = false ->
      includes message (nat_to_string (status res)) = true
      /\ includes message (substring0 page 200) = true)
     /\ (ok res = true ->
         includes (UsersChart.content_type_of res) (lit "application/json")
         = false ->
         includes message (UsersChart.content_type_of res) = true
         /\ includes message (substring0 page 200) = true))
  /\ (forall w : World AdminMovies.State,
        outcome (net browser (sent w ++ [get (lit "/api/movies")]))
        = Resolved res ->
        ok res = false ->
        AdminMovies.error (after (AdminMovies.load browser w))
        = lit "GET /api/movies failed: " ++ nat_to_string (status res)).
Proof.
  split.
  - intros w page Hnet Hpage message. subst message. split.
    + intros Hok.
      rewrite (UsersPage.users_failure_status browser w res page Hnet Hpage Hok).
      split.
      * apply includes_middle.
      * rewrite !app_assoc. apply includes_end.
    + intros Hok Hct.
      rewrite (UsersPage.users_failure_format browser w res page Hnet Hpage Hok Hct).
      split.
      * apply includes_middle.
      * rewrite !app_assoc. apply includes_end.
  - intros w Hnet Hok.
    now rewrite MoviesPage.load_run, Hnet, Hok.
Qed.

(** ** The handlers on concrete backends *)

Import Scenarios.

(** C1: on a backend that answers every DELETE with status 500,
    [deleteAll] sends its three DELETEs, reloads and ends with no message,
    where [deleteOne] on the same backend ends with
    [DELETE 1 failed: 500]: the status of the DELETEs is never read. *)
Theorem deleteAll_ignores_delete_status :
  statuses (answers refusing_deletes [list_movies]
              [delete_of "1"; delete_of "2"; delete_of "3"])
  = [Some 500%N; Some 500%N; Some 500%N]
  /\ AdminMovies.deleteAll refusing_deletes showing_three
     = (Normal tt,
        {| ui := {| AdminMovies.movies := three_movies;
                    AdminMovies.form := AdminMovies.emptyForm;
                    AdminMovies.loading := false;
                    AdminMovies.error := lit "" |};
           sent := [list_movies; delete_of "1"; delete_of "2"; delete_of "3";
                    list_movies] |})
  /\ AdminMovies.error
       (after (AdminMovies.deleteOne refusing_deletes
                 (Some (JNumber (lit "1"))) showing_three))
     = lit "DELETE 1 failed: 500".
Proof. repeat split. Qed.

(** C2 fails as stated: with the DELETE of the second of three movies
    rejected, [deleteAll] has sent the three DELETEs and no second GET; the
    list shown is the one from before and the rejection is the message. *)
Lemma deleteAll_rejected_delete_no_reload :
  confirm dropping_second_delete prompt_all = true
  /\ statuses (answers dropping_second_delete [list_movies]
                 [delete_of "1"; delete_of "2"; delete_of "3"])
     = [Some 204%N; None; Some 204%N]
  /\ issued showing_three
       (AdminMovies.deleteAll dropping_second_delete showing_three)
     = [list_movies; delete_of "1"; delete_of "2"; delete_of "3"]
  /\ List.length
       (filter is_get
          (issued showing_three
             (AdminMovies.deleteAll dropping_second_delete showing_three)))
     = 1
  /\ AdminMovies.movies
       (after (AdminMovies.deleteAll dropping_second_delete showing_three))
     = three_movies
  /\ AdminMovies.error
       (after (AdminMovies.deleteAll dropping_second_delete showing_three))
     = lit "Failed to fetch".
Proof. repeat split. Qed.

(** C5 fails as stated: with GET /api/movies answered 500 and an HTML page,
    the movies list stores [GET /api/movies failed: 500], in which the
    page, 56 units long, does not occur. *)
Lemma movies_load_message_without_body :
  ok (html_response 500) = false
  /\ text (html_response 500) = Resolved error_page
  /\ substring0 error_page 200 = error_page
  /\ AdminMovies.error
       (after (AdminMovies.load broken_listing showing_three))
     = lit "GET /api/movies failed: 500"
  /\ includes
       (AdminMovies.error
          (after (AdminMovies.load broken_listing showing_three)))
       (substring0 error_page 200)
     = false.
Proof. repeat split. Qed.

Lemma load_failure_status_on_500 :
  ok (html_response 500) = false
  /\ AdminMovies.movies (ui showing_three) = three_movies
  /\ includes
       (AdminMovies.error
          (after (AdminMovies.load broken_listing showing_three)))
       (lit "500") = true
  /\ AdminMovies.movies
       (after (AdminMovies.load broken_listing showing_three))
     = JArray [].
Proof.
  split; [reflexivity|]. split; [reflexivity|].
  pose proof (MoviesPage.load_failure_status broken_listing showing_three
                (html_response 500) eq_refl eq_refl) as (_ & Hin & Hmovies).
  split; [exact Hin | exact Hmovies].
Defined.

Lemma addMovie_blank_title_on_spaces :
  blank (AdminMovies.title blank_draft) = true
  /\ issued (with_form blank_draft)
       (AdminMovies.addMovie obeying (with_form blank_draft)) = []
  /\ AdminMovies.error
       (after (AdminMovies.addMovie obeying (with_form blank_draft)))
     = lit "Title is required".
Proof.
  split; [reflexivity|].
  pose proof (MoviesPage.addMovie_blank_title obeying (with_form blank_draft)
                eq_refl) as (Hrun & Hnone & _).
  split; [exact Hnone | now rewrite Hrun].
Defined.

Lemma deleteAll_prefetch_failure_on_500 :
  confirm broken_listing prompt_all = true
  /\ ok (html_response 500) = false
  /\ filter is_delete
       (issued showing_three
          (AdminMovies.deleteAll broken_listing showing_three)) = []
  /\ AdminMovies.error
       (after (AdminMovies.deleteAll broken_listing showing_three))
     = lit "Failed to load movies before deleting".
Proof.
  split; [reflexivity|]. split; [reflexivity|].
  pose proof (MoviesPage.deleteAll_prefetch_failure broken_listing
                showing_three (html_response 500) eq_refl eq_refl eq_refl)
    as (Hrun & _ & Hnone).
  split; [exact Hnone | now rewrite Hrun].
Defined.

Lemma declined_confirm_on_no :
  confirm declining prompt_one = false
  /\ confirm declining prompt_all = false
  /\ AdminMovies.deleteOne declining (Some (JNumber (lit "1"))) showing_three
     = (Normal tt, showing_three)
  /\ AdminMovies.deleteAll declining showing_three
     = (Normal tt, showing_three).
Proof.
  split; [reflexivity|]. split; [reflexivity|].
  pose proof (MoviesPage.declined_confirm declining showing_three
                (Some (JNumber (lit "1")))) as [Hone Hall].
  split; [exact (Hone eq_refl) | exact (Hall eq_refl)].
Defined.

Lemma deleteAll_reload_on_three :
  confirm obeying prompt_all = true
  /\ confirm dropping_two_deletes prompt_all = true
  /\ issued showing_three (AdminMovies.deleteAll obeying showing_three)
     = [list_movies; delete_of "1"; delete_of "2"; delete_of "3"; list_movies]
  /\ AdminMovies.deleteAll dropping_two_deletes showing_three
     = (Normal tt,
        {| ui := {| AdminMovies.movies := three_movies;
                    AdminMovies.form := AdminMovies.emptyForm;
                    AdminMovies.loading := false;
                    AdminMovies.error := lit "Failed to fetch" |};
           sent := [list_movies; delete_of "1"; delete_of "2";
                    delete_of "3"] |}).
Proof.
  split; [reflexivity|]. split; [reflexivity|]. split.
  - pose proof (MoviesPage.deleteAll_reload obeying showing_three
                  (json_response 200 three_movies_text three_movies) _
                  [lit "1"; lit "2"; lit "3"]
                  eq_refl eq_refl eq_refl eq_refl eq_refl) as [Hall _].
    apply Hall. repeat constructor; eexists; split; reflexivity.
  - pose proof (MoviesPage.deleteAll_reload dropping_two_deletes showing_three
                  (json_response 200 three_movies_text three_movies) _
                  [lit "1"; lit "2"; lit "3"]
                  eq_refl eq_refl eq_refl eq_refl eq_refl) as [_ Hrej].
    destruct Hrej as (t & m & Hfirst & _ & _ & Hrun & _).
    + apply Exists_cons_hd. eexists. reflexivity.
    + injection Hfirst as <- <-. exact Hrun.
Defined.

Lemma addMovie_form_on_dune :
  blank (AdminMovies.title dune) = false
  /\ blank (AdminMovies.title blank_draft) = true
  /\ AdminMovies.form
       (after (AdminMovies.addMovie obeying (with_form dune)))
     = AdminMovies.emptyForm
  /\ AdminMovies.form
       (after (AdminMovies.addMovie refusing_deletes (with_form dune)))
     = dune
  /\ AdminMovies.error
       (after (AdminMovies.addMovie refusing_deletes (with_form dune)))
     = lit "POST failed 500: " ++ error_page
  /\ AdminMovies.form
       (after (AdminMovies.addMovie obeying (with_form blank_draft)))
     = blank_draft.
Proof.
  split; [reflexivity|]. split; [reflexivity|].
  pose proof (MoviesPage.addMovie_form obeying (with_form dune))
    as (_ & Hsent & _).
  pose proof (MoviesPage.addMovie_form refusing_deletes (with_form dune))
    as (_ & Hrefused & _).
  pose proof (MoviesPage.addMovie_form obeying (with_form blank_draft))
    as (Hblank & _).
  destruct (Hsent eq_refl _ eq_refl) as [Hreset _].
  destruct (Hrefused eq_refl _ eq_refl) as [_ Hkept].
  destruct (Hkept eq_refl) as (Hform & Hpage & _).
  destruct (Hpage _ eq_refl) as [Hmessage _].
  destruct (Hblank eq_refl) as [Hsame _].
  split; [exact (Hreset eq_refl)|]. split; [exact Hform|].
  split; [exact Hmessage | exact Hsame].
Defined.

Lemma load_non_array_on_object :
  ok object_response = true
  /\ includes (UsersChart.content_type_of object_response)
       (lit "application/json") = true
  /\ isArray (JObject [(lit "users", JNumber (lit "3"))]) = false
  /\ UsersChart.load object_listing users_page
     = (Normal tt,
        {| ui := {| UsersChart.users := Some (JArray []);
                    UsersChart.loading := false;
                    UsersChart.error := lit "" |};
           sent := [UsersChart.get_users] |}).
Proof.
  split; [reflexivity|]. split; [reflexivity|]. split; [reflexivity|].
  exact (UsersPage.load_non_array object_listing users_page object_response
           _ eq_refl eq_refl eq_refl eq_refl eq_refl).
Defined.

Lemma list_failure_messages_on_html :
  text (html_response 500) = Resolved error_page
  /\ ok (html_response 500) = false
  /\ ok (html_response 200) = true
  /\ UsersChart.content_type_of (html_response 200)
     = lit "text/html; charset=utf-8"
  /\ includes
       (UsersChart.error (after (UsersChart.load broken_listing users_page)))
       (lit "500") = true
  /\ includes
       (UsersChart.error (after (UsersChart.load broken_listing users_page)))
       error_page = true
  /\ includes
       (UsersChart.error (after (UsersChart.load html_listing users_page)))
       (lit "text/html; charset=utf-8") = true
  /\ includes
       (UsersChart.error (after (UsersChart.load html_listing users_page)))
       error_page = true
  /\ AdminMovies.error
       (after (AdminMovies.load broken_listing showing_three))
     = lit "GET /api/movies failed: 500".
Proof.
  split; [reflexivity|]. split; [reflexivity|]. split; [reflexivity|].
  split; [reflexivity|].
  pose proof (list_failure_messages broken_listing (html_response 500))
    as [Husers Hmovies].
  pose proof (list_failure_messages html_listing (html_response 200))
    as [Hformat _].
  destruct (Husers users_page error_page eq_refl eq_refl) as [Hstatus _].
  destruct (Hformat users_page error_page eq_refl eq_refl) as [_ Htype].
  destruct (Hstatus eq_refl) as [Hcode Hbody].
  destruct (Htype eq_refl eq_refl) as [Hct Hpage].
  split; [exact Hcode|]. split; [exact Hbody|].
  split; [exact Hct|]. split; [exact Hpage|].
  exact (Hmovies showing_three eq_refl eq_refl).
Defined.

(** * Further properties of the handlers *)

(** ** What a computation leaves alone *)

Section Frames.
Context {S X : Type}.
Variable proj : S -> X.
Variable browser : Browser.

Lemma keeps_ret {A} (a : A) : keeps proj (ret (S := S) a).
Proof. intros w. reflexivity. Qed.

Lemma keeps_throw {A} (m : jsstring) : keeps proj (throw (S := S) (A := A) m).
Proof. intros w. reflexivity. Qed.

Lemma keeps_bind {A B} (c : M S A) (k : A -> M S B) :
  keeps proj c -> (forall a, keeps proj (k a)) -> keeps proj (bind c k).
Proof.
  intros Hc Hk w. unfold bind. specialize (Hc w). unfold after in *.
  destruct (c w) as [[a|m] w']; simpl in *; [|exact Hc].
  rewrite <- Hc. apply Hk.
Qed.

Lemma keeps_set (f : S -> S) :
  (forall s, proj (f s) = proj s) -> keeps proj (set f).
Proof. intros Hf w. apply Hf. Qed.

Lemma keeps_await {A} (p : Settled A) : keeps proj (await (S := S) p).
Proof. destruct p; intros w; reflexivity. Qed.

Lemma keeps_fetch_start (req : Request) :
  keeps proj (fetch_start (S := S) browser req).
Proof. intros w. reflexivity. Qed.

Lemma keeps_fetch (req : Request) : keeps proj (fetch (S := S) browser req).
Proof.
  apply keeps_bind; [apply keeps_fetch_start | intros p; apply keeps_await].
Qed.

Lemma keeps_each {A B} (f : A -> M S B) (l : list A) :
  (forall x, keeps proj (f x)) -> keeps proj (each f l).
Proof.
  intros Hf. induction l as [|x l IH]; simpl.
  - apply keeps_ret.
  - apply keeps_bind; [apply Hf|]. intros y.
    apply keeps_bind; [exact IH|]. intros ys. apply keeps_ret.
Qed.

Lemma keeps_array_map {B} (arr : Json) (f : Json -> M S B) :
  (forall x, keeps proj (f x)) -> keeps proj (array_map browser arr f).
Proof.
  intros Hf. destruct arr; simpl; try apply keeps_throw. now apply keeps_each.
Qed.

Lemma keeps_member_id (m : Json) : keeps proj (member_id (S := S) browser m).
Proof. destruct m; simpl; try apply keeps_ret. apply keeps_throw. Qed.

Lemma keeps_promise_all (ps : list Reply) :
  keeps proj (promise_all (S := S) ps).
Proof.
  unfold promise_all. destruct (first_rejection ps) as [[t m]|].
  - apply keeps_throw.
  - apply keeps_ret.
Qed.

Lemma keeps_interpolate (shown : option jsstring) :
  keeps proj (interpolate (S := S) browser shown).
Proof. destruct shown; [apply keeps_ret | apply keeps_throw]. Qed.

Lemma keeps_ask (m : jsstring) : keeps proj (ask (S := S) browser m).
Proof. intros w. reflexivity. Qed.

Lemma keeps_try {A} (body : M S A) (handler : jsstring -> M S A)
  (final : M S unit) :
  keeps proj body -> (forall m, keeps proj (handler m)) -> keeps proj final ->
  keeps proj (try_catch_finally body handler final).
Proof.
  intros Hb Hh Hf w. unfold try_catch_finally, keeps, after in *.
  specialize (Hb w).
  destruct (body w) as [[a|m] w1]; simpl in *.
  - specialize (Hf w1). destruct (final w1) as [[u|m] w2]; simpl in *; congruence.
  - specialize (Hh m w1). destruct (handler m w1) as [c w2]. simpl in *.
    specialize (Hf w2). destruct (final w2) as [[u|m'] w3]; simpl in *; congruence.
Qed.




End Frames.

(** ** The movies page, every backend *)

Module MoviesFlows.
Import AdminMovies.

Ltac frame :=
  repeat first
    [ progress intros
    | apply keeps_ret | apply keeps_throw | apply keeps_await
    | apply keeps_fetch | apply keeps_fetch_start | apply keeps_ask
    | apply keeps_member_id | apply keeps_promise_all
    | apply keeps_interpolate
    | apply keeps_set; intros; reflexivity
    | apply keeps_bind | apply keeps_try | apply keeps_array_map
    | match goal with
      | |- keeps _ (if ?b then _ else _) => destruct b
      end ].






Lemma load_keeps_form (browser : Browser) : keeps form (load browser).
Proof. unfold load. frame. Qed.

Lemma deleteOne_keeps_form (browser : Browser) (id : option Json) :
  keeps form (deleteOne browser id).
Proof. unfold deleteOne. frame; apply load_keeps_form. Qed.

Lemma deleteAll_keeps_form (browser : Browser) :
  keeps form (deleteAll browser).
Proof. unfold deleteAll. frame; apply load_keeps_form. Qed.



(** X3: deleting never touches the draft: after [deleteOne] and after
    [deleteAll] the form is the one from before, on every backend. *)
Theorem deletes_keep_form (browser : Browser) (w : World State)
  (id : option Json) :
  form (after (deleteOne browser id w)) = form (ui w)
  /\ form (after (deleteAll browser w)) = form (ui w).
Proof.
  split; [apply deleteOne_keeps_form | apply deleteAll_keeps_form].
Qed.

(** X4: when the id has a text and the DELETE of [deleteOne] fails, by a
    non-success status or by a rejection, that DELETE is the only request
    sent, the list shown stays as it was, and the message is
    [DELETE <id> failed: <status>] or the message of the rejection. *)
Theorem deleteOne_failure (browser : Browser) (w : World State)
  (id : option Json) (shown : jsstring) :
  confirm browser (lit "Delete this movie?") = true ->
  to_string id = Some shown ->
  (forall res,
     outcome (net browser (sent w ++ [delete_movie shown])) = Resolved res ->
     ok res = false ->
     deleteOne browser id w
     = (Normal tt,
        {| ui := {| movies := movies (ui w); form := form (ui w);
                    loading := false;
                    error := lit "DELETE " ++ shown ++ lit " failed: "
                               ++ nat_to_string (status res) |};
           sent := sent w ++ [delete_movie shown] |}))
  /\ (forall m,
        outcome (net browser (sent w ++ [delete_movie shown])) = Rejected m ->
        deleteOne browser id w
        = (Normal tt,
           {| ui := {| movies := movies (ui w); form := form (ui w);
                       loading := false; error := m |};
              sent := sent w ++ [delete_movie shown] |})).
Proof.
  intros Hyes Hshown. split.
  - intros res Hnet Hok. MoviesPage.run_handler.
    rewrite Hyes. simpl. rewrite Hshown. simpl. rewrite Hnet. simpl.
    rewrite Hok. reflexivity.
  - intros m Hnet. MoviesPage.run_handler.
    rewrite Hyes. simpl. rewrite Hshown. simpl. rewrite Hnet. reflexivity.
Qed.

(** X5: when the id has a text and the DELETE of [deleteOne] is answered
    with a success status, the handler goes on exactly as [load] does after
    that DELETE: two requests, the DELETE and the GET of the list. *)
Theorem deleteOne_success (browser : Browser) (w : World State)
  (id : option Json) (shown : jsstring) (res : Response) :
  confirm browser (lit "Delete this movie?") = true ->
  to_string id = Some shown ->
  outcome (net browser (sent w ++ [delete_movie shown])) = Resolved res ->
  ok res = true ->
  deleteOne browser id w
  = load browser {| ui := ui w; sent := sent w ++ [delete_movie shown] |}
  /\ issued w (deleteOne browser id w)
     = [delete_movie shown; get (lit "/api/movies")].
Proof.
  intros Hyes Hshown Hnet Hok.
  assert (deleteOne browser id w
          = load browser
              {| ui := ui w; sent := sent w ++ [delete_movie shown] |})
    as Hrun.
  { MoviesPage.run_handler. rewrite Hyes. simpl. rewrite Hshown. simpl.
    rewrite Hnet. simpl. rewrite Hok. simpl.
    rewrite (MoviesPage.load_start browser (ui w)
               {| movies := movies (ui w); form := form (ui w);
                  loading := true; error := lit "" |} _ eq_refl).
    rewrite MoviesPage.load_run. cbn [sent ui form]. clear Hnet.
    destruct (outcome _) as [r|m]; [destruct (ok r); [destruct (json r)|]|];
      reflexivity. }
  split; [exact Hrun|]. rewrite Hrun. unfold issued.
  rewrite MoviesPage.load_requests. cbn [sent].
  now rewrite <- app_assoc, skipn_app, skipn_all, Nat.sub_diag.
Qed.

(** X24: when the id has no text, an object with a key [toString] of its
    own or an array holding one, [deleteOne] throws on the URL before
    [fetch]: nothing is sent, the list shown stays as it was, and the
    message is the TypeError of the engine. *)
Theorem deleteOne_no_text (browser : Browser) (w : World State)
  (id : option Json) :
  confirm browser (lit "Delete this movie?") = true ->
  to_string id = None ->
  deleteOne browser id w
  = (Normal tt,
     {| ui := {| movies := movies (ui w); form := form (ui w);
                 loading := false;
                 error := fault_message browser NotPrimitive |};
        sent := sent w |}).
Proof.
  intros Hyes Hshown. MoviesPage.run_handler.
  rewrite Hyes. simpl. rewrite Hshown. reflexivity.
Qed.

Lemma addMovie_success_run (browser : Browser) (w : World State)
  (res : Response) :
  blank (title (form (ui w))) = false ->
  outcome (net browser (sent w ++ [post_movie (toPayload (form (ui w)))]))
  = Resolved res ->
  ok res = true ->
  addMovie browser w
  = load browser
      {| ui := {| movies := movies (ui w); form := emptyForm;
                  loading := true; error := lit "" |};
         sent := sent w ++ [post_movie (toPayload (form (ui w)))] |}.
Proof.
  intros Hblank Hnet Hok.
  MoviesPage.run_handler. rewrite trim_truthy, Hblank. simpl.
  rewrite Hnet. simpl. rewrite Hok. simpl.
  rewrite MoviesPage.load_run. cbn [sent ui form]. clear Hnet.
  destruct (outcome _) as [r|m]; [destruct (ok r); [destruct (json r)|]|];
    reflexivity.
Qed.

Lemma addMovie_success_requests (browser : Browser) (w : World State)
  (res : Response) :
  blank (title (form (ui w))) = false ->
  outcome (net browser (sent w ++ [post_movie (toPayload (form (ui w)))]))
  = Resolved res ->
  ok res = true ->
  issued w (addMovie browser w)
  = [post_movie (toPayload (form (ui w))); get (lit "/api/movies")].
Proof.
  intros Hblank Hnet Hok.
  rewrite (addMovie_success_run browser w res Hblank Hnet Hok).
  unfold issued. rewrite MoviesPage.load_requests. cbn [sent].
  now rewrite <- app_assoc, skipn_app, skipn_all, Nat.sub_diag.
Qed.

(** X6: with a title that is not blank and the POST answered with a
    success status, [addMovie] sends the POST of [toPayload] of the draft,
    empties the form and goes on exactly as [load] does from there; the
    requests are that POST and the GET of the list. *)
Theorem addMovie_success (browser : Browser) (w : World State)
  (res : Response) :
  blank (title (form (ui w))) = false ->
  outcome (net browser (sent w ++ [post_movie (toPayload (form (ui w)))]))
  = Resolved res ->
  ok res = true ->
  addMovie browser w
  = load browser
      {| ui := {| movies := movies (ui w); form := emptyForm;
                  loading := true; error := lit "" |};
         sent := sent w ++ [post_movie (toPayload (form (ui w)))] |}
  /\ issued w (addMovie browser w)
     = [post_movie (toPayload (form (ui w))); get (lit "/api/movies")].
Proof.
  intros Hblank Hnet Hok. split.
  - now apply addMovie_success_run with (res := res).
  - now apply addMovie_success_requests with (res := res).
Qed.

(** The requests of [addMovie], on every backend. *)
Lemma addMovie_requests (browser : Browser) (w : World State) :
  let post := post_movie (toPayload (form (ui w))) in
  issued w (addMovie browser w)
  = if blank (title (form (ui w))) then []
    else match outcome (net browser (sent w ++ [post])) with
         | Resolved res =>
             if ok res then [post; get (lit "/api/movies")] else [post]
         | Rejected _ => [post]
         end.
Proof.
  cbv zeta. destruct (blank (title (form (ui w)))) eqn:Hblank.
  - rewrite (MoviesPage.addMovie_blank_run browser w Hblank).
    apply MoviesPage.issued_none.
  - destruct (outcome _) as [res|m] eqn:Hnet.
    + destruct (ok res) eqn:Hok.
      * exact (addMovie_success_requests browser w res Hblank Hnet Hok).
      * MoviesPage.run_handler. rewrite trim_truthy, Hblank. simpl.
        rewrite Hnet. simpl. rewrite Hok. simpl.
        unfold issued, requests.
        destruct (text res); simpl;
          now rewrite skipn_app, skipn_all, Nat.sub_diag.
    + MoviesPage.run_handler. rewrite trim_truthy, Hblank. simpl.
      rewrite Hnet. simpl. unfold issued, requests. simpl.
      now rewrite skipn_app, skipn_all, Nat.sub_diag.
Qed.

(** X7: whatever the backend does, [addMovie] sends at most one POST and
    never a DELETE, and a POST it sends carries [toPayload] of the draft
    with the title as typed, a string that is not blank: a movie without a
    title is never submitted. *)
Theorem addMovie_posts_title (browser : Browser) (w : World State) :
  let sent_now := issued w (addMovie browser w) in
  List.length (filter is_post sent_now) <= 1
  /\ filter is_delete sent_now = []
  /\ (forall r, In r sent_now -> method r = POST ->
        body r = Some (toPayload (form (ui w)))
        /\ prop (toPayload (form (ui w))) "title"
           = FString (title (form (ui w)))
        /\ blank (title (form (ui w))) = false).
Proof.
  cbv zeta. rewrite addMovie_requests. cbv zeta.
  destruct (blank (title (form (ui w)))) eqn:Hblank.
  - simpl. split; [lia|]. split; [reflexivity|]. intros r [].
  - assert (prop (toPayload (form (ui w))) "title"
            = FString (title (form (ui w)))) as Htitle.
    { change (prop (toPayload (form (ui w))) "title")
        with (or_null (title (form (ui w)))).
      destruct (title (form (ui w))); [discriminate Hblank | reflexivity]. }
    destruct (outcome _) as [res|m]; [destruct (ok res)|]; simpl;
      (split; [lia|]); (split; [reflexivity|]);
      intros r Hin Hpost;
      repeat (destruct Hin as [<-|Hin]; [try discriminate Hpost; auto|]);
      destruct Hin.
Qed.

Lemma deletes_are_deletes (texts : list jsstring) :
  filter is_delete (map delete_movie texts) = map delete_movie texts.
Proof.
  induction texts as [|text texts IH]; simpl; [reflexivity|]. now rewrite IH.
Qed.

(** X8: once the list is fetched as an array whose entries are not [null]
    and have an id that converts to a string ([texts] are the ids as the
    URLs show them), [deleteAll] sends exactly one DELETE per entry, in the
    order of the list and to the URL of the entry's id, whatever the
    DELETEs are answered; on an empty list it sends none and reloads. *)
Theorem deleteAll_one_delete_each (browser : Browser) (w : World State)
  (res : Response) (items : list Json) (texts : list jsstring) :
  confirm browser (lit "Delete ALL movies? This cannot be undone.") = true ->
  outcome (net browser (sent w ++ [get (lit "/api/movies")])) = Resolved res ->
  ok res = true ->
  json res = Resolved (JArray items) ->
  map id_text items = map Some texts ->
  filter is_delete (issued w (deleteAll browser w)) = map delete_movie texts
  /\ (items = [] ->
      issued w (deleteAll browser w)
      = [get (lit "/api/movies"); get (lit "/api/movies")]).
Proof.
  intros Hyes Hnet Hok Hjson Hitems.
  pose proof (MoviesPage.deleteAll_run browser w res items texts Hyes Hnet
                Hok Hjson Hitems) as Hrun. cbv zeta in Hrun.
  assert (issued w (deleteAll browser w)
          = get (lit "/api/movies") :: map delete_movie texts
          \/ issued w (deleteAll browser w)
             = get (lit "/api/movies") :: map delete_movie texts
                 ++ [get (lit "/api/movies")]) as Hsent.
  { rewrite Hrun. destruct (first_rejection _) as [[t m]|].
    - left. rewrite <- app_assoc. apply MoviesPage.issued_more.
    - right. unfold issued. rewrite MoviesPage.load_requests. cbn [sent].
      now rewrite <- !app_assoc, skipn_app, skipn_all, Nat.sub_diag. }
  split.
  - destruct Hsent as [-> | ->]; simpl.
    + apply deletes_are_deletes.
    + rewrite filter_app, deletes_are_deletes. simpl. apply app_nil_r.
  - intros ->. destruct texts; [|discriminate Hitems].
    rewrite Hrun. simpl. unfold issued.
    rewrite MoviesPage.load_requests. cbn [sent].
    now rewrite <- !app_assoc, skipn_app, skipn_all, Nat.sub_diag.
Qed.

(** X9: when the body fetched by [deleteAll] parses to something that is
    no array, no DELETE is sent and nothing is reloaded: the handler stops
    with the TypeError of the engine as the message, the list shown
    unchanged. *)
Theorem deleteAll_not_an_array (browser : Browser) (w : World State)
  (res : Response) (data : Json) :
  confirm browser (lit "Delete ALL movies? This cannot be undone.") = true ->
  outcome (net browser (sent w ++ [get (lit "/api/movies")])) = Resolved res ->
  ok res = true ->
  json res = Resolved data ->
  isArray data = false ->
  deleteAll browser w
  = (Normal tt,
     {| ui := {| movies := movies (ui w); form := form (ui w);
                 loading := false;
                 error := fault_message browser
                            match data with
                            | JNull => ReadOfNull
                            | _ => NotAFunction
                            end |};
        sent := sent w ++ [get (lit "/api/movies")] |}).
Proof.
  intros Hyes Hnet Hok Hjson Harr. MoviesPage.run_handler.
  rewrite Hyes. simpl. rewrite Hnet. simpl. rewrite Hok. simpl.
  rewrite Hjson. simpl. destruct data; try reflexivity. discriminate Harr.
Qed.

(** The map of [deleteAll] on a list with an entry that has no id text:
    the DELETEs of the entries before it go out, then the map throws. *)
Lemma deletes_until_stuck (browser : Browser) (before rest : list Json)
  (texts : list jsstring) (stuck : Json) (w : World State) :
  map id_text before = map Some texts ->
  id_text stuck = None ->
  each (fun m => id <- member_id browser m ;;
                 shown <- interpolate browser (to_string id) ;;
                 fetch_start browser (delete_movie shown))
    (before ++ stuck :: rest) w
  = (Thrown (fault_message browser
               match stuck with
               | JNull => ReadIdOfNull
               | _ => NotPrimitive
               end),
     {| ui := ui w; sent := sent w ++ map delete_movie texts |}).
Proof.
  intros Hbefore Hstuck. revert texts w Hbefore.
  induction before as [|m before IH]; intros [|text texts] w Hbefore;
    try discriminate Hbefore.
  - cbn [app each map]. unfold bind at 1.
    assert ((id <- member_id browser stuck ;;
             shown <- interpolate browser (to_string id) ;;
             fetch_start browser (delete_movie shown)) w
            = (Thrown (fault_message browser
                         match stuck with
                         | JNull => ReadIdOfNull
                         | _ => NotPrimitive
                         end), w)) as ->.
    { unfold bind.
      destruct stuck; try reflexivity; unfold id_text, id_of in Hstuck;
        cbn [member_id ret]; rewrite Hstuck; reflexivity. }
    rewrite app_nil_r. destruct w; reflexivity.
  - injection Hbefore as Htext Hbefore.
    cbn [app each map].
    unfold bind at 1. rewrite (MoviesPage.start_delete browser m text w Htext).
    unfold bind at 1. rewrite (IH texts _ Hbefore). cbn [sent ui].
    rewrite <- app_assoc. reflexivity.
Qed.

(** X10: an entry of the fetched list that is [null], or whose id does not
    convert to a string, stops [deleteAll] in the middle of the list: the
    DELETEs of the entries before it are sent, its own and those of the
    entries after it are not, nothing is awaited or reloaded, and the
    message is the TypeError of the engine, the one for reading [id] of
    [null] or the one for the conversion. *)
Theorem deleteAll_stuck_entry (browser : Browser) (w : World State)
  (res : Response) (before rest : list Json) (texts : list jsstring)
  (stuck : Json) :
  confirm browser (lit "Delete ALL movies? This cannot be undone.") = true ->
  outcome (net browser (sent w ++ [get (lit "/api/movies")])) = Resolved res ->
  ok res = true ->
  json res = Resolved (JArray (before ++ stuck :: rest)) ->
  map id_text before = map Some texts ->
  id_text stuck = None ->
  deleteAll browser w
  = (Normal tt,
     {| ui := {| movies := movies (ui w); form := form (ui w);
                 loading := false;
                 error := fault_message browser
                            match stuck with
                            | JNull => ReadIdOfNull
                            | _ => NotPrimitive
                            end |};
        sent := (sent w ++ [get (lit "/api/movies")])
                  ++ map delete_movie texts |}).
Proof.
  intros Hyes Hnet Hok Hjson Hbefore Hstuck.
  pose proof (fun v => deletes_until_stuck browser before rest texts stuck v
                         Hbefore Hstuck) as Hstart.
  MoviesPage.run_handler. rewrite Hyes. simpl. rewrite Hnet. simpl.
  rewrite Hok. simpl. rewrite Hjson. simpl. rewrite Hstart. reflexivity.
Qed.

Lemma deleteAll_declined_run (browser : Browser) (w : World State) :
  confirm browser (lit "Delete ALL movies? This cannot be undone.") = false ->
  deleteAll browser w = (Normal tt, w).
Proof.
  intros Hno. MoviesPage.run. rewrite Hno. reflexivity.
Qed.

(** X23: [deleteAll] sends a DELETE only after the user has confirmed and
    the list has been fetched with a success status and parsed to an array:
    declined, or with the list rejected, refused, unparsable or no array,
    not one DELETE goes out. *)
Theorem deleteAll_deletes_only_a_list (browser : Browser) (w : World State)
  (r : Request) :
  In r (issued w (deleteAll browser w)) ->
  is_delete r = true ->
  confirm browser (lit "Delete ALL movies? This cannot be undone.") = true
  /\ exists res items,
       outcome (net browser (sent w ++ [get (lit "/api/movies")]))
       = Resolved res
       /\ ok res = true
       /\ json res = Resolved (JArray items).
Proof.
  destruct (confirm browser (lit "Delete ALL movies? This cannot be undone."))
    eqn:Hyes.
  2:{ rewrite (deleteAll_declined_run browser w Hyes).
      unfold issued, requests. cbn [snd]. rewrite skipn_all. intros []. }
  destruct (outcome (net browser (sent w ++ [get (lit "/api/movies")])))
    as [res|m] eqn:Hnet.
  2:{ assert (issued w (deleteAll browser w) = [get (lit "/api/movies")])
        as ->.
      { MoviesPage.run_handler. rewrite Hyes. simpl. rewrite Hnet. simpl.
        apply MoviesPage.issued_more. }
      intros [<-|[]]. discriminate. }
  destruct (ok res) eqn:Hok.
  2:{ assert (issued w (deleteAll browser w) = [get (lit "/api/movies")])
        as ->.
      { MoviesPage.run_handler. rewrite Hyes. simpl. rewrite Hnet. simpl.
        rewrite Hok. simpl. apply MoviesPage.issued_more. }
      intros [<-|[]]. discriminate. }
  destruct (json res) as [data|m] eqn:Hjson.
  2:{ assert (issued w (deleteAll browser w) = [get (lit "/api/movies")])
        as ->.
      { MoviesPage.run_handler. rewrite Hyes. simpl. rewrite Hnet. simpl.
        rewrite Hok. simpl. rewrite Hjson. simpl.
        apply MoviesPage.issued_more. }
      intros [<-|[]]. discriminate. }
  destruct (isArray data) eqn:Harr.
  - destruct data; try discriminate Harr. intros _ _. split; [reflexivity|].
    now exists res, items.
  - assert (issued w (deleteAll browser w) = [get (lit "/api/movies")]) as ->.
    { MoviesPage.run_handler. rewrite Hyes. simpl. rewrite Hnet. simpl.
      rewrite Hok. simpl. rewrite Hjson. simpl.
      destruct data; try discriminate Harr; apply MoviesPage.issued_more. }
    intros [<-|[]]. discriminate.
Qed.

(** X11: the payload has exactly one property per input of the form,
    under the name of the input.  An input left empty is sent as [null];
    one that is not is sent as typed, [salesMillions] as [Number] of what
    was typed.  No property is [undefined] or the empty string. *)
Theorem toPayload_shape (f : Form) :
  map fst (toPayload f) = input_names
  /\ NoDup (map fst (toPayload f))
  /\ (forall name typed, field f name = Some typed ->
        prop (toPayload f) name
        = if truthy typed
          then if String.eqb name "salesMillions" then FNumber typed
               else FString typed
          else FNull)
  /\ (forall key v, In (key, v) (toPayload f) ->
        v <> FUndefined /\ v <> FString (lit "")).
Proof.
  split; [reflexivity|]. split.
  { simpl. repeat constructor; simpl; intuition discriminate. }
  split.
  - intros name typed. unfold field.
    repeat match goal with
    | |- context [String.eqb name ?k] =>
        destruct (String.eqb_spec name k) as [->|_];
        [ intros [= <-]; simpl; unfold or_null;
          match goal with
          | |- context [truthy ?t] => destruct t; reflexivity
          end | ]
    end.
    discriminate.
  - assert (forall s, or_null s <> FUndefined /\ or_null s <> FString (lit ""))
      as Hnull.
    { intros [|c s]; split; discriminate. }
    intros key v Hin. simpl in Hin.
    repeat (destruct Hin as [Hin|Hin];
            [injection Hin as <- <-; try apply Hnull;
             destruct (str_eqb _ _); split; discriminate|]).
    destruct Hin.
Qed.

(** X12: the snake_case payload carries the same values in the same order
    as the camelCase one, under the snake_case keys; with the flag as the
    source sets it, [toPayload] is the camelCase one. *)
Theorem toPayload_casing (f : Form) :
  map snd (toPayloadWith true f) = map snd (toPayloadWith false f)
  /\ map fst (toPayloadWith true f) = snake_names
  /\ map fst (toPayloadWith false f) = input_names
  /\ toPayload f = toPayloadWith SEND_SNAKE_CASE f.
Proof. repeat split. Qed.

Lemma field_update_same (f : Form) (name : string) (value : jsstring) :
  In name input_names -> field (update f name value) name = Some value.
Proof.
  intros Hin. simpl in Hin.
  repeat (destruct Hin as [<-|Hin]; [reflexivity|]). destruct Hin.
Qed.

Lemma field_update_other (f : Form) (name other : string)
  (value : jsstring) :
  other <> name -> field (update f name value) other = field f other.
Proof.
  intros Hne. unfold field.
  repeat match goal with
  | |- context [String.eqb other ?k] =>
      destruct (String.eqb_spec other k) as [->|_];
      [ simpl; destruct (String.eqb_spec name k) as [->|_];
        [now elim Hne | reflexivity] | ]
  end.
  reflexivity.
Qed.

(** X13: typing into an input sets that field of the draft to the value
    typed and no other field; under a name that is no input of the form the
    draft stays as it was.  Typing sends nothing and leaves the list, the
    loading flag and the message alone. *)
Theorem onChange_sets_one_field (w : World State) (name : string)
  (value : jsstring) :
  let run := onChange name value w in
  (In name input_names -> field (form (after run)) name = Some value)
  /\ (forall other, other <> name ->
        field (form (after run)) other = field (form (ui w)) other)
  /\ (~ In name input_names -> form (after run) = form (ui w))
  /\ requests run = sent w
  /\ movies (after run) = movies (ui w)
  /\ loading (after run) = loading (ui w)
  /\ error (after run) = error (ui w).
Proof.
  cbv zeta. unfold after, onChange, set, requests. cbn [snd ui sent form].
  split; [apply field_update_same|].
  split; [intros other; apply field_update_other|].
  split; [|repeat split].
  intros Hout. unfold update.
  repeat match goal with
  | |- context [String.eqb name ?k] =>
      destruct (String.eqb_spec name k) as [->|_];
      [ elim Hout; simpl; tauto | ]
  end.
  destruct (form (ui w)); reflexivity.
Qed.

(** X14: typing twice into the same input keeps the last value, and
    typing into two different inputs gives the same draft in either
    order. *)
Theorem onChange_composes (f : Form) (name other : string)
  (first second : jsstring) :
  update (update f name first) name second = update f name second
  /\ (other <> name ->
      update (update f name first) other second
      = update (update f other second) name first).
Proof.
  split.
  - unfold update. simpl.
    repeat match goal with
    | |- context [String.eqb name ?k] => destruct (String.eqb name k)
    end; reflexivity.
  - intros Hne. unfold update. simpl.
    repeat match goal with
    | |- context [String.eqb other ?k] =>
        destruct (String.eqb_spec other k) as [->|_];
        [ destruct (String.eqb_spec name k) as [->|_];
          [now elim Hne|] | ]
    end;
    reflexivity.
Qed.


End MoviesFlows.

(** ** The users list, every backend *)

Module UsersFlows.
Import UsersChart.

Lemma or_else_truthy (m : jsstring) :
  truthy (or_else m (lit "Failed to load users")) = true.
Proof. destruct m; reflexivity. Qed.

(** Every way [load] can go: it completes, has sent its one GET, has
    cleared the loading flag, and holds either what was loaded with no
    message or the empty array with a message. *)
Lemma load_cases (browser : Browser) (w : World State) :
  exists items message,
    load browser w
    = (Normal tt,
       {| ui := {| users := Some (JArray items); loading := false;
                   error := message |};
          sent := sent w ++ [get_users] |})
    /\ (message = lit "" \/ (items = [] /\ truthy message = true)).
Proof.
  UsersPage.run_load.
  destruct (outcome _) as [res|m]; simpl.
  2:{ exists [], (or_else m (lit "Failed to load users")).
      split; [reflexivity | right; split; [reflexivity | apply or_else_truthy]]. }
  destruct (ok res); simpl.
  - destruct (includes _ _); simpl.
    + destruct (json res) as [data|m]; simpl.
      * destruct data; simpl;
          try (exists [], (lit ""); split; [reflexivity | now left]).
        exists items, (lit ""). split; [reflexivity | now left].
      * exists [], (or_else m (lit "Failed to load users")).
        split; [reflexivity | right; split; [reflexivity | apply or_else_truthy]].
    + destruct (text res) as [page|m]; simpl; eexists [], _;
        (split; [reflexivity | right; split; [reflexivity|]]);
        [reflexivity | apply or_else_truthy].
  - destruct (text res) as [page|m]; simpl; eexists [], _;
      (split; [reflexivity | right; split; [reflexivity|]]);
      [reflexivity | apply or_else_truthy].
Qed.


(** X17: once the load has completed, of the conditions under which the
    component renders its blocks the one of the Loading line is false and
    exactly one of the two others holds, that of the table or that of the
    No users found line; when the one of the message holds, so does that
    of No users found: beside a message [users] is empty and no row is
    rendered. *)
Theorem users_view_after_load (browser : Browser) (w : World State) :
  let s := after (load browser w) in
  shows_loading s = false
  /\ xorb (shows_no_users s) (shows_table s) = true
  /\ (shows_error s = true -> shows_no_users s = true).
Proof.
  cbv zeta. destruct (load_cases browser w) as (items & message & -> & H).
  unfold after, shows_loading, shows_no_users, shows_table, shows_error.
  cbn [snd ui users loading error].
  split; [reflexivity|]. split.
  - destruct items; reflexivity.
  - intros Hshown. destruct H as [-> | [-> _]]; [discriminate | reflexivity].
Qed.

(** X18: when GET /users is answered with a success status, a JSON content
    type and a body that parses to an array, the array is what [users]
    holds afterwards, and the message is empty whatever it was before. *)
Theorem users_load_success (browser : Browser) (w : World State)
  (res : Response) (items : list Json) :
  outcome (net browser (sent w ++ [get_users])) = Resolved res ->
  ok res = true ->
  includes (content_type_of res) (lit "application/json") = true ->
  json res = Resolved (JArray items) ->
  after (load browser w)
  = {| users := Some (JArray items); loading := false; error := lit "" |}.
Proof.
  intros Hnet Hok Hct Hjson. unfold after.
  UsersPage.run_load. rewrite Hnet. simpl. rewrite Hok. simpl. rewrite Hct.
  rewrite Hjson. reflexivity.
Qed.

(** X19: a success answer without a content-type header is refused even
    when its body would parse: the body is read as text, the message is
    [Unexpected response content-type=. Body: ] followed by its first 200
    units, and [users] is the empty array. *)
Theorem users_load_no_content_type (browser : Browser) (w : World State)
  (res : Response) (page : jsstring) :
  outcome (net browser (sent w ++ [get_users])) = Resolved res ->
  ok res = true ->
  header_content_type res = None ->
  text res = Resolved page ->
  after (load browser w)
  = {| users := Some (JArray []); loading := false;
       error := lit "Unexpected response content-type=. Body: "
                  ++ substring0 page 200 |}.
Proof.
  intros Hnet Hok Hheader Hpage. unfold after.
  UsersPage.run_load. rewrite Hnet. simpl. rewrite Hok. simpl.
  unfold content_type_of, headers_get_content_type. rewrite Hheader. simpl.
  rewrite Hpage. reflexivity.
Qed.

Lemma toLowerCase_app (a b : jsstring) :
  toLowerCase (a ++ b) = toLowerCase a ++ toLowerCase b.
Proof. apply map_app. Qed.

(** X20: the content type is matched without regard to case and anywhere
    in the header: a header holding [application/json] in any mix of upper
    and lower case, with or without parameters around it, counts as
    JSON. *)
Theorem content_type_any_case (res : Response) (header : string)
  (before spelled rest : jsstring) :
  header_content_type res = Some header ->
  of_bytes header = before ++ spelled ++ rest ->
  toLowerCase spelled = lit "application/json" ->
  includes (content_type_of res) (lit "application/json") = true.
Proof.
  intros Hheader Hsplit Hspelled.
  unfold content_type_of, headers_get_content_type.
  rewrite Hheader. cbn [option_map]. rewrite Hsplit.
  assert (or_else (before ++ spelled ++ rest) (lit "")
          = before ++ spelled ++ rest) as ->.
  { unfold or_else. destruct (before ++ spelled ++ rest); reflexivity. }
  rewrite !toLowerCase_app, Hspelled. apply includes_middle.
Qed.

(** X21: at most 200 units of the body reach the message: on a status that
    is not a success one the message is the 22 units around the status,
    the status and at most 200 units; on a content type that is not JSON
    it is 41 units, the content type and at most 200 units. *)
Theorem users_message_bounded (browser : Browser) (w : World State)
  (res : Response) (page : jsstring) :
  outcome (net browser (sent w ++ [get_users])) = Resolved res ->
  text res = Resolved page ->
  let message := error (after (load browser w)) in
  (ok res = false ->
   List.length message
   = 22 + List.length (nat_to_string (status res))
       + Nat.min 200 (List.length page))
  /\ (ok res = true ->
      includes (content_type_of res) (lit "application/json") = false ->
      List.length message
      = 41 + List.length (content_type_of res)
          + Nat.min 200 (List.length page)).
Proof.
  intros Hnet Hpage. cbv zeta. split.
  - intros Hok.
    rewrite (UsersPage.users_failure_status browser w res page Hnet Hpage Hok).
    unfold substring0. rewrite !length_app, length_firstn. simpl. lia.
  - intros Hok Hct.
    rewrite (UsersPage.users_failure_format browser w res page Hnet Hpage
               Hok Hct).
    unfold substring0. rewrite !length_app, length_firstn. simpl. lia.
Qed.





End UsersFlows.

(** ** The further properties on concrete backends *)

Lemma deleteOne_failure_on_500 :
  confirm refusing_deletes prompt_one = true
  /\ confirm dropping_second_delete prompt_one = true
  /\ to_string (Some (JNumber (lit "1"))) = Some (lit "1")
  /\ ok (html_response 500) = false
  /\ AdminMovies.deleteOne refusing_deletes (Some (JNumber (lit "1")))
       showing_three
     = (Normal tt,
        {| ui := {| AdminMovies.movies := three_movies;
                    AdminMovies.form := AdminMovies.emptyForm;
                    AdminMovies.loading := false;
                    AdminMovies.error := lit "DELETE 1 failed: 500" |};
           sent := [delete_of "1"] |})
  /\ AdminMovies.deleteOne dropping_second_delete (Some (JNumber (lit "2")))
       showing_three
     = (Normal tt,
        {| ui := {| AdminMovies.movies := three_movies;
                    AdminMovies.form := AdminMovies.emptyForm;
                    AdminMovies.loading := false;
                    AdminMovies.error := lit "Failed to fetch" |};
           sent := [delete_of "2"] |}).
Proof.
  split; [reflexivity|]. split; [reflexivity|]. split; [reflexivity|].
  split; [reflexivity|].
  pose proof (MoviesFlows.deleteOne_failure refusing_deletes showing_three
                (Some (JNumber (lit "1"))) (lit "1") eq_refl eq_refl)
    as [Hstatus _].
  pose proof (MoviesFlows.deleteOne_failure dropping_second_delete
                showing_three (Some (JNumber (lit "2"))) (lit "2")
                eq_refl eq_refl)
    as [_ Hrejected].
  split.
  - exact (Hstatus (html_response 500) eq_refl eq_refl).
  - exact (Hrejected (lit "Failed to fetch") eq_refl).
Defined.

Lemma deleteOne_success_on_204 :
  confirm obeying prompt_one = true
  /\ to_string (Some (JNumber (lit "1"))) = Some (lit "1")
  /\ issued showing_three
       (AdminMovies.deleteOne obeying (Some (JNumber (lit "1")))
          showing_three)
     = [delete_of "1"; list_movies].
Proof.
  split; [reflexivity|]. split; [reflexivity|].
  pose proof (MoviesFlows.deleteOne_success obeying showing_three
                (Some (JNumber (lit "1"))) (lit "1") _
                eq_refl eq_refl eq_refl eq_refl)
    as [_ Hsent].
  exact Hsent.
Defined.

Lemma deleteOne_no_text_on_object :
  confirm obeying prompt_one = true
  /\ to_string (Some odd_id) = None
  /\ AdminMovies.deleteOne obeying (Some odd_id) showing_three
     = (Normal tt,
        {| ui := {| AdminMovies.movies := three_movies;
                    AdminMovies.form := AdminMovies.emptyForm;
                    AdminMovies.loading := false;
                    AdminMovies.error
                      := lit "Cannot convert object to primitive value" |};
           sent := [] |}).
Proof.
  split; [reflexivity|]. split; [reflexivity|].
  exact (MoviesFlows.deleteOne_no_text obeying showing_three (Some odd_id)
           eq_refl eq_refl).
Defined.

Lemma addMovie_success_on_dune :
  blank (AdminMovies.title dune) = false
  /\ issued (with_form dune)
       (AdminMovies.addMovie obeying (with_form dune))
     = [AdminMovies.post_movie (AdminMovies.toPayload dune); list_movies]
  /\ AdminMovies.form
       (after (AdminMovies.addMovie obeying (with_form dune)))
     = AdminMovies.emptyForm.
Proof.
  split; [reflexivity|].
  pose proof (MoviesFlows.addMovie_success obeying (with_form dune)
                _ eq_refl eq_refl eq_refl) as [Hrun Hsent].
  split; [exact Hsent | now rewrite Hrun].
Defined.

Lemma deleteAll_one_delete_each_on_three :
  confirm dropping_second_delete prompt_all = true
  /\ map id_text [movie "1" "Dune"; movie "2" "Alien"; movie "3" "Heat"]
     = map Some [lit "1"; lit "2"; lit "3"]
  /\ filter is_delete
       (issued showing_three
          (AdminMovies.deleteAll dropping_second_delete showing_three))
     = [delete_of "1"; delete_of "2"; delete_of "3"]
  /\ issued showing_three
       (AdminMovies.deleteAll empty_listing showing_three)
     = [list_movies; list_movies].
Proof.
  split; [reflexivity|]. split; [reflexivity|].
  pose proof (MoviesFlows.deleteAll_one_delete_each dropping_second_delete
                showing_three _ _ [lit "1"; lit "2"; lit "3"]
                eq_refl eq_refl eq_refl eq_refl eq_refl)
    as [Hdeletes _].
  pose proof (MoviesFlows.deleteAll_one_delete_each empty_listing
                showing_three _ [] [] eq_refl eq_refl eq_refl eq_refl
                eq_refl) as [_ Hempty].
  split; [exact Hdeletes | exact (Hempty eq_refl)].
Defined.

Lemma deleteAll_not_an_array_on_object :
  confirm object_listing prompt_all = true
  /\ isArray (JObject [(lit "users", JNumber (lit "3"))]) = false
  /\ issued showing_three
       (AdminMovies.deleteAll object_listing showing_three)
     = [list_movies]
  /\ AdminMovies.error
       (after (AdminMovies.deleteAll object_listing showing_three))
     = lit "list.map is not a function".
Proof.
  split; [reflexivity|]. split; [reflexivity|].
  pose proof (MoviesFlows.deleteAll_not_an_array object_listing
                showing_three object_response _ eq_refl eq_refl eq_refl
                eq_refl eq_refl) as Hrun.
  rewrite Hrun. split; reflexivity.
Defined.

Lemma deleteAll_stuck_entry_on_hole :
  confirm holed_listing prompt_all = true
  /\ ok holed_response = true
  /\ ok odd_response = true
  /\ id_text (movie "1" "Dune") = Some (lit "1")
  /\ id_text JNull = None
  /\ id_text odd_movie = None
  /\ issued showing_three
       (AdminMovies.deleteAll holed_listing showing_three)
     = [list_movies; delete_of "1"]
  /\ AdminMovies.error
       (after (AdminMovies.deleteAll holed_listing showing_three))
     = lit "Cannot read properties of null (reading 'id')"
  /\ issued showing_three
       (AdminMovies.deleteAll odd_listing showing_three)
     = [list_movies; delete_of "1"]
  /\ AdminMovies.error
       (after (AdminMovies.deleteAll odd_listing showing_three))
     = lit "Cannot convert object to primitive value".
Proof.
  split; [reflexivity|]. split; [reflexivity|]. split; [reflexivity|].
  split; [reflexivity|]. split; [reflexivity|]. split; [reflexivity|].
  pose proof (MoviesFlows.deleteAll_stuck_entry holed_listing showing_three
                holed_response [movie "1" "Dune"] [movie "3" "Heat"]
                [lit "1"] JNull
                eq_refl eq_refl eq_refl eq_refl eq_refl eq_refl) as Hnull.
  pose proof (MoviesFlows.deleteAll_stuck_entry odd_listing showing_three
                odd_response [movie "1" "Dune"] [movie "3" "Heat"]
                [lit "1"] odd_movie
                eq_refl eq_refl eq_refl eq_refl eq_refl eq_refl) as Hodd.
  rewrite Hnull, Hodd. repeat split.
Defined.

Lemma users_load_success_on_capitals :
  ok capitals_response = true
  /\ UsersChart.users
       (after (UsersChart.load capitals_listing users_page))
     = Some (JArray [snake_user])
  /\ UsersChart.error
       (after (UsersChart.load capitals_listing users_page))
     = lit "".
Proof.
  split; [reflexivity|].
  pose proof (UsersFlows.users_load_success capitals_listing users_page
                capitals_response [snake_user] eq_refl eq_refl eq_refl
                eq_refl) as Hrun.
  rewrite Hrun. split; reflexivity.
Defined.

Lemma users_load_no_content_type_on_bare :
  ok bare_response = true
  /\ header_content_type bare_response = None
  /\ json bare_response = Resolved (JArray [snake_user])
  /\ UsersChart.users (after (UsersChart.load bare_listing users_page))
     = Some (JArray [])
  /\ UsersChart.error (after (UsersChart.load bare_listing users_page))
     = lit "Unexpected response content-type=. Body: "
         ++ lit "[" ++ snake_user_text ++ lit "]".
Proof.
  split; [reflexivity|]. split; [reflexivity|]. split; [reflexivity|].
  pose proof (UsersFlows.users_load_no_content_type bare_listing users_page
                bare_response _ eq_refl eq_refl eq_refl eq_refl) as Hrun.
  rewrite Hrun. split; reflexivity.
Defined.

Lemma content_type_any_case_on_capitals :
  toLowerCase (lit "Application/JSON") = lit "application/json"
  /\ includes (UsersChart.content_type_of capitals_response)
       (lit "application/json") = true.
Proof.
  split; [reflexivity|].
  exact (UsersFlows.content_type_any_case capitals_response
           "Application/JSON; charset=UTF-8" [] (lit "Application/JSON")
           (lit "; charset=UTF-8") eq_refl eq_refl eq_refl).
Defined.

Lemma users_message_bounded_on_html :
  ok (html_response 500) = false
  /\ ok (html_response 200) = true
  /\ List.length error_page = 56
  /\ List.length
       (UsersChart.error (after (UsersChart.load broken_listing users_page)))
     = 22 + 3 + 56
  /\ List.length
       (UsersChart.error (after (UsersChart.load html_listing users_page)))
     = 41 + 24 + 56.
Proof.
  split; [reflexivity|]. split; [reflexivity|]. split; [reflexivity|].
  pose proof (UsersFlows.users_message_bounded broken_listing users_page
                (html_response 500) error_page eq_refl eq_refl)
    as [Hstatus _].
  pose proof (UsersFlows.users_message_bounded html_listing users_page
                (html_response 200) error_page eq_refl eq_refl)
    as [_ Hformat].
  split; [exact (Hstatus eq_refl) | exact (Hformat eq_refl eq_refl)].
Defined.


Lemma deleteAll_deletes_only_a_list_on_three :
  In (delete_of "1")
    (issued showing_three (AdminMovies.deleteAll obeying showing_three))
  /\ is_delete (delete_of "1") = true
  /\ confirm obeying prompt_all = true
  /\ exists res items,
       outcome (net obeying (sent showing_three ++ [list_movies]))
       = Resolved res
       /\ ok res = true
       /\ json res = Resolved (JArray items).
Proof.
  assert (In (delete_of "1")
            (issued showing_three
               (AdminMovies.deleteAll obeying showing_three))) as Hin
    by (right; left; reflexivity).
  split; [exact Hin|]. split; [reflexivity|].
  exact (MoviesFlows.deleteAll_deletes_only_a_list obeying showing_three
           (delete_of "1") Hin eq_refl).
Defined.
